(** * QnA-Chatbot-API: the retrieval-augmented answering pipeline

    A shallow embedding of [app/rag_pipeline.py] (class [RAGPipeline]) and of
    the [/ask] handler of [app/main.py], with the properties of the
    specification that concern them.

    Python [str] values are modelled as [string]; a character is a code
    point below 256.  [len] is [String.length].  Calls into LangChain, FAISS,
    the file system and the remote model are collaborators: they are taken as
    the fields of a record, and the pipeline is written over them in a
    state-and-exception monad, one definition per method of the class.  The
    calls to the logger are left out. *)

From Stdlib Require Import Ascii DecimalString.
From stdpp Require Import base list strings gmap.

#[local] Arguments String.append !_ _ / : simpl nomatch.
#[local] Arguments Ascii.eqb : simpl never.

(** ** Python string primitives used by the highlighter *)

Module Str.

(** [str.isspace] on one character, which is also the class [\s] of a [str]
    pattern: TAB..CR, FS..US, SPACE, NEL and NBSP are the white-space code
    points below 256. *)
Definition is_space (c : ascii) : bool :=
  let n := nat_of_ascii c in
  ((9 <=? n) && (n <=? 13)) || ((28 <=? n) && (n <=? 31))
  || (n =? 32) || (n =? 133) || (n =? 160).

(** The character class [[.!?]] of the look-behind. *)
Definition is_stop (c : ascii) : bool :=
  Ascii.eqb c "."%char || Ascii.eqb c "!"%char || Ascii.eqb c "?"%char.

Definition starts_with_space (s : string) : bool :=
  match s with
  | EmptyString => false
  | String c _ => is_space c
  end.

(** Whether [sub] occurs in [s] at the cursor. *)
Fixpoint starts_with (sub s : string) : bool :=
  match sub, s with
  | EmptyString, _ => true
  | String _ _, EmptyString => false
  | String a sub', String b s' => Ascii.eqb a b && starts_with sub' s'
  end.

(** [sub in s]. *)
Fixpoint contains (sub s : string) : bool :=
  starts_with sub s ||
  match s with
  | EmptyString => false
  | String _ s' => contains sub s'
  end.

Fixpoint drop (n : nat) (s : string) : string :=
  match n, s with
  | S k, String _ s' => drop k s'
  | _, _ => s
  end.

(** [s.lstrip()] and [s.rstrip()] without argument. *)
Fixpoint lstrip (s : string) : string :=
  match s with
  | EmptyString => EmptyString
  | String c s' => if is_space c then lstrip s' else s
  end.

Fixpoint rstrip (s : string) : string :=
  match s with
  | EmptyString => EmptyString
  | String c s' =>
      match rstrip s' with
      | EmptyString => if is_space c then EmptyString else String c EmptyString
      | r => String c r
      end
  end.

(** [s.strip()]. *)
Definition strip (s : string) : string := rstrip (lstrip s).

(** The scan of [s.replace(old, new)] for a non-empty [old]: left to right,
    an occurrence of [old] at the cursor is replaced and the cursor jumps
    behind it ([skip] counts the characters of the occurrence still to be
    passed over); otherwise one character is copied. *)
Fixpoint replace_scan (old new : string) (skip : nat) (s : string) : string :=
  match s with
  | EmptyString => EmptyString
  | String c s' =>
      match skip with
      | S k => replace_scan old new k s'
      | O =>
          if starts_with old s
          then new +:+ replace_scan old new (String.length old - 1) s'
          else String c (replace_scan old new 0 s')
      end
  end.

(** With an empty [old], Python inserts [new] before every character and at
    the end. *)
Fixpoint intersperse_after (new s : string) : string :=
  match s with
  | EmptyString => EmptyString
  | String c s' => String c (new +:+ intersperse_after new s')
  end.

(** [s.replace(old, new)]. *)
Definition replace (s old new : string) : string :=
  match old with
  | EmptyString => new +:+ intersperse_after new s
  | String _ _ => replace_scan old new 0 s
  end.

Definition cons_head (c : ascii) (l : list string) : list string :=
  match l with
  | [] => [String c EmptyString]
  | p :: ps => String c p :: ps
  end.

(** The scan of [re.split(r'(?<=[.!?])\s+', s)].  A match is a maximal run of
    white space whose first character follows one of [.], [!], [?]; the
    pieces are what lies between the matches.  [in_sep] holds while the scan
    is inside a match. *)
Fixpoint split_scan (in_sep : bool) (s : string) : list string :=
  match s with
  | EmptyString => [EmptyString]
  | String c s' =>
      if in_sep && is_space c then split_scan true s'
      else if is_stop c && starts_with_space s'
           then String c EmptyString :: split_scan true s'
           else cons_head c (split_scan false s')
  end.

Definition re_split_sentences (s : string) : list string := split_scan false s.

End Str.

(** ** The highlighter: [RAGPipeline.highlight_context] *)

(** The body of the inner loop: one sentence of one context, applied to the
    working string [highlighted_answer].  The test [clean_sentence in answer]
    reads the argument [answer]. *)
Definition highlight_sentence (answer highlighted_answer sentence : string) : string :=
  let clean_sentence := Str.strip sentence in
  if (20 <? String.length clean_sentence) && Str.contains clean_sentence answer
  then Str.replace highlighted_answer clean_sentence ("**" +:+ clean_sentence +:+ "**")
  else highlighted_answer.

(** The inner loop over the sentences of one context. *)
Definition highlight_one_context (answer highlighted_answer context : string) : string :=
  let sentences := Str.re_split_sentences context in
  fold_left (highlight_sentence answer) sentences highlighted_answer.

Definition highlight_context (answer : string) (contexts : list string) : string :=
  fold_left (highlight_one_context answer) contexts answer.

(** *** The words of the specification for the highlighter *)

Fixpoint all_space (s : string) : bool :=
  match s with
  | EmptyString => true
  | String c s' => Str.is_space c && all_space s'
  end.

Fixpoint ends_with_space (s : string) : bool :=
  match s with
  | EmptyString => false
  | String c EmptyString => Str.is_space c
  | String _ s' => ends_with_space s'
  end.

(** A boundary: one of [.], [!], [?] immediately followed by white space. *)
Fixpoint has_boundary (s : string) : bool :=
  match s with
  | EmptyString => false
  | String c s' => (Str.is_stop c && Str.starts_with_space s') || has_boundary s'
  end.

(** [split_at_stops s units]: [units] are the sentence-like units of [s].
    A unit runs up to and including the first [.], [!] or [?] that is
    followed by white space; that white space, all of it, separates it from
    the next unit; the last unit is what remains and holds no boundary. *)
Inductive split_at_stops : string -> list string -> Prop :=
| split_last (s : string) :
    has_boundary s = false ->
    split_at_stops s [s]
| split_cut (p : string) (c : ascii) (ws rest : string) (units : list string) :
    has_boundary (p +:+ String c EmptyString) = false ->
    Str.is_stop c = true ->
    ws <> EmptyString ->
    all_space ws = true ->
    Str.starts_with_space rest = false ->
    split_at_stops rest units ->
    split_at_stops (p +:+ String c (ws +:+ rest)) ((p +:+ String c EmptyString) :: units).

(** [trimmed s u]: [u] is [s] without its leading and trailing white space. *)
Definition trimmed (s u : string) : Prop :=
  exists ws1 ws2,
    s = ws1 +:+ u +:+ ws2
    /\ all_space ws1 = true /\ all_space ws2 = true
    /\ Str.starts_with_space u = false /\ ends_with_space u = false.

(** [wrapped_all old new s r]: [r] is [s] with every occurrence of [old]
    replaced by [new], the occurrences being taken from left to right and
    not overlapping. *)
Inductive wrapped_all (old new : string) : string -> string -> Prop :=
| wrapped_end :
    wrapped_all old new EmptyString EmptyString
| wrapped_occurrence (t r : string) :
    wrapped_all old new t r ->
    wrapped_all old new (old +:+ t) (new +:+ r)
| wrapped_other (c : ascii) (s r : string) :
    Str.starts_with old (String c s) = false ->
    wrapped_all old new s r ->
    wrapped_all old new (String c s) (String c r).

(** The emphasis markers around a unit. *)
Definition emphasized (u : string) : string := "**" +:+ u +:+ "**".

(** A sentence matches when its trimmed unit is longer than 20 characters
    and occurs in the answer. *)
Definition matches (answer sentence : string) : bool :=
  (20 <? String.length (Str.strip sentence)) && Str.contains (Str.strip sentence) answer.

(** The sentences of the contexts, context after context and sentence after
    sentence: the order of the two loops. *)
Definition sentences_of (contexts : list string) : list string :=
  flat_map Str.re_split_sentences contexts.

(** ** Values exchanged with the collaborators *)

(** A LangChain [Document]: the text and the metadata dictionary. *)
Record Document := {
  page_content : string;
  metadata : gmap string string
}.

(** A Python exception: its class and [str(e)]. *)
Record Exn := {
  exn_class : string;
  exn_message : string
}.

Definition ValueError (msg : string) : Exn :=
  {| exn_class := "ValueError"; exn_message := msg |}.

(** What [getattr] raises on [None]. *)
Definition AttributeError_None (attr : string) : Exn :=
  {| exn_class := "AttributeError";
     exn_message := "'NoneType' object has no attribute '" +:+ attr +:+ "'" |}.

Inductive Result (A : Type) : Type :=
| Ok (a : A)
| Raise (e : Exn).
Arguments Ok {A} a.
Arguments Raise {A} e.

(** [app/config.py]: the options the pipeline reads. *)
Record Settings := {
  openai_model : string;
  embedding_model : string;
  chunk_size : Z;
  chunk_overlap : Z;
  retrieval_k : Z;
  vector_store_path : string;
  documents_path : string
}.

Definition default_settings : Settings := {|
  openai_model := "gpt-5-nano";
  embedding_model := "text-embedding-ada-002";
  chunk_size := 1000;
  chunk_overlap := 200;
  retrieval_k := 4;
  vector_store_path := "./vector_store";
  documents_path := "./documents"
|}.

(** The dictionary returned by [qa_chain.invoke]: [ask] reads the keys
    ["result"] and ["source_documents"] with [dict.get], so either may be
    missing. *)
Record ChainResult := {
  cr_result : option string;
  cr_source_documents : option (list Document)
}.

(** The [RetrievalQA] object built by [_create_qa_chain]: what it was given.
    [chain_store] is the reference to the vector store object its retriever
    reads. *)
Record RetrievalQA := {
  chain_store : nat;
  chain_k : Z;
  chain_prompt : string
}.

(** The libraries and services the pipeline calls.  [World] is the state of
    the file system and of the remote services; a call returns its result,
    or the exception it raised, and the world after it. *)
Record Collaborators := {
  FAISS : Type;
  World : Type;
  (** [Path(p).exists()] *)
  Path_exists : World -> string -> bool;
  (** [str(Path(p))] *)
  Path_str : string -> string;
  (** [Path(p).mkdir(parents=True, exist_ok=True)] *)
  Path_mkdir : World -> string -> Result unit * World;
  (** [DirectoryLoader(dir, glob=g, loader_cls=TextLoader, ...).load()] *)
  DirectoryLoader_load : World -> string -> string -> Result (list Document) * World;
  (** [TextLoader(file_path, encoding="utf-8").load()] *)
  TextLoader_load : World -> string -> Result (list Document) * World;
  (** [RecursiveCharacterTextSplitter(chunk_size, chunk_overlap, len,
      separators).split_documents(documents)] *)
  TextSplitter_split_documents :
    Z -> Z -> list string -> list Document -> Result (list Document);
  (** [FAISS.from_documents(documents, embedding)] *)
  FAISS_from_documents : World -> string -> list Document -> Result FAISS * World;
  (** [FAISS.load_local(path, embeddings, allow_dangerous_deserialization=True)] *)
  FAISS_load_local : World -> string -> string -> Result FAISS * World;
  (** [store.save_local(path)] *)
  FAISS_save_local : World -> FAISS -> string -> Result unit * World;
  (** [store.add_documents(chunks)]: the store is changed in place, so the
      store after the call is returned also when the call raises. *)
  FAISS_add_documents : World -> FAISS -> list Document -> Result unit * FAISS * World;
  (** [chain.invoke({"query": question})], for a chain over a store with the
      given contents, [k] and prompt. *)
  RetrievalQA_invoke : World -> FAISS -> Z -> string -> string -> Result ChainResult * World
}.

(** ** [os.path.basename] (POSIX): what follows the last [/] *)

Fixpoint basename_scan (acc p : string) : string :=
  match p with
  | EmptyString => acc
  | String c p' =>
      if Ascii.eqb c "/"%char then basename_scan EmptyString p'
      else basename_scan (acc +:+ String c EmptyString) p'
  end.

Definition basename (p : string) : string := basename_scan EmptyString p.

(** The separators given to the text splitter: paragraph break, line break,
    space, and the empty string. *)
Definition separators : list string :=
  [String "010" (String "010" EmptyString); String "010" EmptyString; " "; EmptyString].

(** A reference that denotes no object; it does not arise. *)
Definition dangling_reference : Exn :=
  {| exn_class := "ReferenceError"; exn_message := EmptyString |}.

(** The prompt of [_create_qa_chain]. *)
Definition prompt_template : string :=
"You are a helpful AI assistant answering questions based on the provided context.

Use the following pieces of context to answer the question at the end. If you don't know the answer based on the context, just say that you don't know. Don't try to make up an answer.

When answering:
1. Be specific and cite relevant information from the context
2. Keep your answer concise but complete
3. If the context mentions specific policies, prices, or procedures, include them in your answer

Context:
{context}

Question: {question}

Answer:".

(** The dictionary returned by [RAGPipeline.ask]. *)
Record AskResult := {
  ar_answer : string;
  ar_sources : list string;
  ar_contexts : list string;
  ar_source_documents : list Document
}.

(** [app/models.py]: [QuestionResponse]. *)
Record QuestionResponse := {
  answer : string;
  sources : list string;
  highlighted_answer : option string
}.

(** What the [/ask] handler produces: the response, or an [HTTPException]. *)
Inductive HttpResult (A : Type) : Type :=
| Http200 (a : A)
| HTTPException (status_code : nat) (detail : string).
Arguments Http200 {A} a.
Arguments HTTPException {A} status_code detail.

(** ** The pipeline *)

Section Pipeline.

Context (C : Collaborators) (settings : Settings).

(** The Python heap of vector store objects, the two attributes of the
    [RAGPipeline] instance that change, and the world.  [self.vector_store]
    is a reference into [heap]. *)
Record State := {
  heap : list (FAISS C);
  self_vector_store : option nat;
  self_qa_chain : option RetrievalQA;
  world : World C
}.

(** The state after [RAGPipeline.__init__]. *)
Definition init_state (w : World C) : State :=
  {| heap := []; self_vector_store := None; self_qa_chain := None; world := w |}.

Definition M (A : Type) : Type := State -> Result A * State.

Definition ret {A} (a : A) : M A := fun st => (Ok a, st).

Definition raise {A} (e : Exn) : M A := fun st => (Raise e, st).

Definition bind {A B} (m : M A) (k : A -> M B) : M B :=
  fun st =>
    match m st with
    | (Ok a, st') => k a st'
    | (Raise e, st') => (Raise e, st')
    end.

Notation "x <- m ;; k" := (bind m (fun x => k))
  (at level 100, m at next level, right associativity).
Notation "m ;;; k" := (bind m (fun _ => k))
  (at level 100, right associativity).

Definition get_state : M State := fun st => (Ok st, st).

(** A collaborator call that may change the world. *)
Definition call {A} (f : World C -> Result A * World C) : M A :=
  fun st =>
    let '(r, w) := f (world st) in
    (r, {| heap := heap st; self_vector_store := self_vector_store st;
           self_qa_chain := self_qa_chain st; world := w |}).

(** A new object on the heap; its reference. *)
Definition alloc (v : FAISS C) : M nat :=
  fun st =>
    (Ok (length (heap st)),
     {| heap := heap st ++ [v]; self_vector_store := self_vector_store st;
        self_qa_chain := self_qa_chain st; world := world st |}).

(** [self.vector_store = r] *)
Definition set_vector_store (r : nat) : M unit :=
  fun st => (Ok tt, {| heap := heap st; self_vector_store := Some r;
                       self_qa_chain := self_qa_chain st; world := world st |}).

(** [self.qa_chain = ch] *)
Definition set_qa_chain (ch : RetrievalQA) : M unit :=
  fun st => (Ok tt, {| heap := heap st; self_vector_store := self_vector_store st;
                       self_qa_chain := Some ch; world := world st |}).

Definition path_exists (p : string) : M bool :=
  fun st => (Ok (Path_exists C (world st) p), st).

(** The object a reference denotes; a dangling reference does not arise. *)
Definition deref (r : nat) : M (FAISS C) :=
  fun st =>
    match heap st !! r with
    | Some v => (Ok v, st)
    | None => (Raise dangling_reference, st)
    end.

Definition load_documents (path_arg : option string) : M (list Document) :=
  let path := default (documents_path settings) path_arg in
  e <- path_exists path ;;
  if negb e then
    raise (ValueError ("Documents path does not exist: " +:+ Path_str C path))
  else
    txt_docs <- call (fun w => DirectoryLoader_load C w (Path_str C path) "**/*.txt") ;;
    md_docs <- call (fun w => DirectoryLoader_load C w (Path_str C path) "**/*.md") ;;
    let all_docs := txt_docs ++ md_docs in
    ret all_docs.

Definition split_documents (documents : list Document) : M (list Document) :=
  fun st =>
    (TextSplitter_split_documents C (chunk_size settings) (chunk_overlap settings)
       separators documents,
     st).

(** The new store is a new object; the method returns its reference. *)
Definition create_vector_store (documents : list Document) : M nat :=
  vector_store <- call (fun w => FAISS_from_documents C w (embedding_model settings) documents) ;;
  alloc vector_store.

Definition save_vector_store (vector_store_arg : option nat) (path_arg : option string) : M unit :=
  vector_store <- (match vector_store_arg with
                   | None => st <- get_state ;; ret (self_vector_store st)
                   | Some r => ret (Some r)
                   end) ;;
  let path := default (vector_store_path settings) path_arg in
  call (fun w => Path_mkdir C w path) ;;;
  match vector_store with
  | None => raise (AttributeError_None "save_local")
  | Some r =>
      v <- deref r ;;
      call (fun w => FAISS_save_local C w v path)
  end.

Definition load_vector_store (path_arg : option string) : M nat :=
  let path := default (vector_store_path settings) path_arg in
  e <- path_exists path ;;
  if negb e then
    raise (ValueError ("Vector store path does not exist: " +:+ path))
  else
    vector_store <- call (fun w => FAISS_load_local C w path (embedding_model settings)) ;;
    alloc vector_store.

Definition _create_qa_chain : M unit :=
  st <- get_state ;;
  match self_vector_store st with
  | None => raise (AttributeError_None "as_retriever")
  | Some r =>
      set_qa_chain {| chain_store := r;
                      chain_k := retrieval_k settings;
                      chain_prompt := prompt_template |}
  end.

Definition initialize_vector_store (force_rebuild : bool) : M unit :=
  e <- path_exists (vector_store_path settings) ;;
  (if e && negb force_rebuild then
     r <- load_vector_store None ;;
     set_vector_store r
   else
     documents <- load_documents None ;;
     chunks <- split_documents documents ;;
     r <- create_vector_store chunks ;;
     set_vector_store r ;;;
     save_vector_store None None) ;;;
  _create_qa_chain.

(** [doc.metadata.get("source", "unknown")], then [os.path.basename]. *)
Definition source_name (doc : Document) : string :=
  basename (default "unknown" (metadata doc !! "source")).

(** [list(set(names))]: the order of the result is that of the set. *)
Definition list_set (names : list string) : list string :=
  elements (list_to_set names : gset string).

Definition ask (question : string) : M AskResult :=
  st <- get_state ;;
  match self_qa_chain st with
  | None => raise (ValueError "QA chain not initialized. Call initialize_vector_store() first.")
  | Some chain =>
      store <- deref (chain_store chain) ;;
      result <- call (fun w => RetrievalQA_invoke C w store (chain_k chain)
                                 (chain_prompt chain) question) ;;
      let source_docs := default [] (cr_source_documents result) in
      let sources := list_set (map source_name source_docs) in
      let contexts := map page_content source_docs in
      let answer := default EmptyString (cr_result result) in
      ret {| ar_answer := answer;
             ar_sources := sources;
             ar_contexts := contexts;
             ar_source_documents := source_docs |}
  end.

(** The loop [for file_path in file_paths] of [add_documents]. *)
Fixpoint load_files (file_paths : list string) (new_docs : list Document) : M (list Document) :=
  match file_paths with
  | [] => ret new_docs
  | file_path :: rest =>
      docs <- call (fun w => TextLoader_load C w file_path) ;;
      load_files rest (new_docs ++ docs)
  end.

(** [self.vector_store.add_documents(chunks)]: the object is changed in
    place. *)
Definition store_add_documents (r : nat) (chunks : list Document) : M unit :=
  fun st =>
    match heap st !! r with
    | None => (Raise dangling_reference, st)
    | Some v =>
        let '(res, v', w) := FAISS_add_documents C (world st) v chunks in
        (res, {| heap := <[r := v']> (heap st);
                 self_vector_store := self_vector_store st;
                 self_qa_chain := self_qa_chain st;
                 world := w |})
    end.

Definition add_documents (file_paths : list string) : M unit :=
  st <- get_state ;;
  match self_vector_store st with
  | None => raise (ValueError "Vector store not initialized")
  | Some r =>
      new_docs <- load_files file_paths [] ;;
      chunks <- split_documents new_docs ;;
      store_add_documents r chunks ;;;
      save_vector_store None None
  end.

(** [app/main.py], [ask_question]: the body of the [try] and the
    [except Exception] clause. *)
Definition ask_question (question : string) (st : State) : HttpResult QuestionResponse * State :=
  match ask question st with
  | (Ok result, st') =>
      let highlighted := highlight_context (ar_answer result) (ar_contexts result) in
      (Http200 {| answer := ar_answer result;
                  sources := ar_sources result;
                  highlighted_answer :=
                    if negb (String.eqb highlighted (ar_answer result))
                    then Some highlighted else None |},
       st')
  | (Raise e, st') =>
      (HTTPException 500
         ("An error occurred while processing your question: " +:+ exn_message e),
       st')
  end.

(** The pipeline is ready when the QA chain exists: the guard of [ask]. *)
Definition ready (st : State) : bool :=
  match self_qa_chain st with Some _ => true | None => false end.

(** The store [self.vector_store] denotes. *)
Definition live_index (st : State) : option (FAISS C) :=
  r ← self_vector_store st; heap st !! r.

(** The references held by the pipeline and by its chain denote objects. *)
Definition well_formed (st : State) : Prop :=
  (forall r, self_vector_store st = Some r -> r < length (heap st))
  /\ (forall ch, self_qa_chain st = Some ch -> chain_store ch < length (heap st)).

(** The chain [_create_qa_chain] builds over the store with reference [r]. *)
Definition chain_over (r : nat) : RetrievalQA :=
  {| chain_store := r; chain_k := retrieval_k settings; chain_prompt := prompt_template |}.

(** The state once a new store [idx] has become the live index and the chain
    has been created over it, in world [w]. *)
Definition ready_with (st : State) (idx : FAISS C) (w : World C) : State :=
  {| heap := heap st ++ [idx];
     self_vector_store := Some (length (heap st));
     self_qa_chain := Some (chain_over (length (heap st)));
     world := w |}.

(** The state [st] in world [w]. *)
Definition with_world (st : State) (w : World C) : State :=
  {| heap := heap st; self_vector_store := self_vector_store st;
     self_qa_chain := self_qa_chain st; world := w |}.

(** [m] leaves [self.qa_chain] as it is. *)
Definition keeps_chain {A} (m : M A) : Prop :=
  forall st, self_qa_chain (m st).2 = self_qa_chain st.

(** [hoare P m Q]: from a state in [P], [m] returns a value and a state in
    [Q], or raises in a well-formed state. *)
Definition hoare {A} (P : State -> Prop) (m : M A) (Q : A -> State -> Prop) : Prop :=
  forall st, P st ->
    match m st with
    | (Ok a, st') => Q a st'
    | (Raise _, st') => well_formed st'
    end.

(** [P] does not depend on the world. *)
Definition world_blind (P : State -> Prop) : Prop :=
  forall st w, P st -> P (with_world st w).

(** A state whose references are valid once the store with reference [r]
    has become the live one. *)
Definition allocated (r : nat) (st : State) : Prop :=
  r < length (heap st)
  /\ (forall ch, self_qa_chain st = Some ch -> chain_store ch < length (heap st)).

End Pipeline.

Arguments heap {C} _.
Arguments self_vector_store {C} _.
Arguments self_qa_chain {C} _.
Arguments world {C} _.
Arguments ready {C} _.
Arguments live_index {C} _.
Arguments ready_with {C} _ _ _ _.
Arguments with_world {C} _ _.
Arguments well_formed {C} _.
Arguments hoare {C A} _ _ _.
Arguments world_blind {C} _.
Arguments allocated {C} _ _.
Arguments keeps_chain {C A} _.

(** The fresh-build path as the specification words it: load all documents
    from the configured location, chunk, embed into a new index, make it the
    live index, persist it, create the QA chain. *)
Definition fresh_build (C : Collaborators) (settings : Settings) : M C unit :=
  bind C (load_documents C settings None) (fun documents =>
  bind C (split_documents C settings documents) (fun chunks =>
  bind C (create_vector_store C settings chunks) (fun r =>
  bind C (set_vector_store C r) (fun _ =>
  bind C (save_vector_store C settings None None) (fun _ =>
  _create_qa_chain C settings))))).

(** ** A small concrete instance of the collaborators

    Used to run the pipeline on concrete inputs.  The vector store is the
    list of its chunks; the world lists the paths that exist, the indexes
    saved so far, and the documents of the documents folder. *)

Module Demo.

Record disk := {
  existing : list string;
  saved : list (string * list Document);
  txt_files : list Document;
  md_files : list Document;
  readable : list (string * string)
}.

Definition doc (text source : string) : Document :=
  {| page_content := text; metadata := {[ "source" := source ]} |}.

Fixpoint lookup_path {A} (p : string) (l : list (string * A)) : option A :=
  match l with
  | [] => None
  | (q, a) :: l' => if String.eqb p q then Some a else lookup_path p l'
  end.

Definition mem_path (p : string) (l : list string) : bool :=
  existsb (String.eqb p) l.

Definition with_existing (w : disk) (p : string) : disk :=
  {| existing := p :: existing w; saved := saved w; txt_files := txt_files w;
     md_files := md_files w; readable := readable w |}.

Definition with_saved (w : disk) (p : string) (v : list Document) : disk :=
  {| existing := existing w; saved := (p, v) :: saved w; txt_files := txt_files w;
     md_files := md_files w; readable := readable w |}.

Definition IndexError : Exn :=
  {| exn_class := "IndexError"; exn_message := "list index out of range" |}.

Definition RuntimeError (msg : string) : Exn :=
  {| exn_class := "RuntimeError"; exn_message := msg |}.

(** [reject_empty]: whether the index builder raises on an empty list of
    chunks, as one that reads the dimension off the first vector does. *)
Definition collaborators (reject_empty : bool) : Collaborators := {|
  FAISS := list Document;
  World := disk;
  Path_exists := fun w p => mem_path p (existing w);
  Path_str := fun p => p;
  Path_mkdir := fun w p => (Ok tt, with_existing w p);
  DirectoryLoader_load := fun w dir glob =>
    (Ok (if String.eqb glob "**/*.txt" then txt_files w else md_files w), w);
  TextLoader_load := fun w file_path =>
    match lookup_path file_path (readable w) with
    | Some text => (Ok [doc text file_path], w)
    | None => (Raise (RuntimeError ("Error loading " +:+ file_path)), w)
    end;
  TextSplitter_split_documents := fun _ _ _ documents => Ok documents;
  FAISS_from_documents := fun w _ documents =>
    match documents with
    | [] => if reject_empty then (Raise IndexError, w) else (Ok [], w)
    | _ => (Ok documents, w)
    end;
  FAISS_load_local := fun w p _ =>
    match lookup_path p (saved w) with
    | Some v => (Ok v, w)
    | None => (Raise (RuntimeError ("could not open " +:+ p)), w)
    end;
  FAISS_save_local := fun w v p => (Ok tt, with_saved w p v);
  FAISS_add_documents := fun w v chunks => (Ok tt, v ++ chunks, w);
  RetrievalQA_invoke := fun w v k _ _ =>
    (Ok {| cr_result := head (map page_content v);
           cr_source_documents := Some (take (Z.to_nat k) v) |}, w)
|}.

Definition policy : Document :=
  doc "Returns are accepted within 30 days. Refunds take 5 business days."
      "documents/policy.txt".

(** No persisted index, an empty documents folder. *)
Definition w_empty : disk :=
  {| existing := ["./documents"]; saved := []; txt_files := []; md_files := [];
     readable := [] |}.

(** No persisted index, one document. *)
Definition w_fresh : disk :=
  {| existing := ["./documents"]; saved := []; txt_files := [policy]; md_files := [];
     readable := [("documents/faq.txt", "Shipping is free for orders above 50 euros.")] |}.

(** A persisted index, no documents folder. *)
Definition w_saved : disk :=
  {| existing := ["./vector_store"]; saved := [("./vector_store", [policy])];
     txt_files := []; md_files := []; readable := [] |}.

(** The vector store folder exists but holds no index; the documents folder
    holds one document. *)
Definition w_corrupt : disk :=
  {| existing := ["./vector_store"; "./documents"]; saved := [];
     txt_files := [policy]; md_files := []; readable := [] |}.

(** A ready pipeline over a store whose two chunks come from files of the
    same name in different folders. *)
Definition st_two_folders : State (collaborators true) :=
  Build_State (collaborators true)
    [[doc "Returns are accepted within 30 days." "documents/eu/policy.txt";
      doc "Returns are accepted within 14 days." "documents/us/policy.txt"]]
    (Some 0)
    (Some {| chain_store := 0; chain_k := 4; chain_prompt := prompt_template |})
    w_saved.

(** A ready pipeline over the one-document store, in the world [w_fresh]
    where [documents/faq.txt] can be read. *)
Definition st_ready : State (collaborators true) :=
  Build_State (collaborators true)
    [[policy]]
    (Some 0)
    (Some {| chain_store := 0; chain_k := 4; chain_prompt := prompt_template |})
    w_fresh.

End Demo.

(** ** The other handlers of [app/main.py] *)

(** [s.endswith(suffix)] and [s.endswith((suffix1, suffix2, ...))]. *)
Definition endswith (s suffix : string) : bool :=
  (String.length suffix <=? String.length s)
  && String.eqb (Str.drop (String.length s - String.length suffix) s) suffix.

Definition endswith_any (s : string) (suffixes : list string) : bool :=
  existsb (endswith s) suffixes.

(** [str(n)] for a length. *)
Definition str_of_nat (n : nat) : string := NilEmpty.string_of_uint (Nat.to_uint n).

(** An uploaded file: its name and its bytes. *)
Record UploadFile := {
  filename : string;
  file : string
}.

(** [app/models.py]: [UploadResponse] and [HealthResponse]. *)
Record UploadResponse := {
  ur_message : string;
  ur_files_uploaded : list string;
  ur_total_documents : Z
}.

Record HealthResponse := {
  hr_status : string;
  hr_vector_store_initialized : bool;
  hr_total_documents : option Z
}.

(** The dictionary returned by the [/rebuild] handler. *)
Record RebuildResponse := {
  rr_message : string;
  rr_total_documents : Z
}.

(** What the handlers ask of their host beside the pipeline. *)
Record Host (C : Collaborators) := {
  (** [str(Path(dir) / name)] *)
  Path_join : string -> string -> string;
  (** [with open(path, "wb") as f: shutil.copyfileobj(file.file, f)] *)
  write_upload : World C -> string -> string -> Result unit * World C;
  (** [store.index.ntotal] *)
  index_ntotal : FAISS C -> Result Z
}.
Arguments Path_join {C} _ _ _.
Arguments write_upload {C} _ _ _ _.
Arguments index_ntotal {C} _ _.

(** What leaves the [try] block of [upload_documents]: an [HTTPException]
    raised by the handler itself, or any other exception. *)
Inductive Thrown : Type :=
| ThrownHTTP (status_code : nat) (detail : string)
| ThrownOther (e : Exn).

Section Handlers.

Context (C : Collaborators) (H : Host C) (settings : Settings).

(** [rag_pipeline.vector_store.index.ntotal] *)
Definition total_docs (st : State C) : Result Z :=
  match self_vector_store st with
  | None => Raise (AttributeError_None "index")
  | Some r =>
      match heap st !! r with
      | None => Raise dangling_reference
      | Some v => index_ntotal H v
      end
  end.

(** [health_check]: the [try] around [ntotal] swallows any exception. *)
Definition health_check (st : State C) : HealthResponse :=
  let is_initialized :=
    match self_vector_store st with Some _ => true | None => false end in
  let total :=
    if is_initialized then
      match total_docs st with
      | Ok n => Some n
      | Raise _ => None
      end
    else None in
  {| hr_status := "healthy";
     hr_vector_store_initialized := is_initialized;
     hr_total_documents := total |}.

(** The loop [for file in files] of [upload_documents]. *)
Fixpoint save_uploads (dir : string) (files : list UploadFile) (uploaded_files : list string)
    (st : State C) : (Thrown + list string) * State C :=
  match files with
  | [] => (inr uploaded_files, st)
  | f :: rest =>
      if negb (endswith_any (filename f) [".txt"; ".md"]) then
        (inl (ThrownHTTP 400
                ("Invalid file type: " +:+ filename f
                 +:+ ". Only .txt and .md files are allowed.")),
         st)
      else
        let file_path := Path_join H dir (filename f) in
        match write_upload H (world st) file_path (file f) with
        | (Raise e, w) => (inl (ThrownOther e), with_world st w)
        | (Ok _, w) => save_uploads dir rest (uploaded_files ++ [file_path]) (with_world st w)
        end
  end.

Definition upload_error (e : Exn) : string :=
  "An error occurred while uploading documents: " +:+ exn_message e.

(** [upload_documents]: the [try] block, [except HTTPException: raise] and
    [except Exception]. *)
Definition upload_documents (files : list UploadFile) (st : State C)
    : HttpResult UploadResponse * State C :=
  match Path_mkdir C (world st) (documents_path settings) with
  | (Raise e, w) => (HTTPException 500 (upload_error e), with_world st w)
  | (Ok _, w) =>
      match save_uploads (documents_path settings) files [] (with_world st w) with
      | (inl (ThrownHTTP status_code detail), st1) => (HTTPException status_code detail, st1)
      | (inl (ThrownOther e), st1) => (HTTPException 500 (upload_error e), st1)
      | (inr uploaded_files, st1) =>
          match add_documents C settings uploaded_files st1 with
          | (Raise e, st2) => (HTTPException 500 (upload_error e), st2)
          | (Ok _, st2) =>
              match total_docs st2 with
              | Raise e => (HTTPException 500 (upload_error e), st2)
              | Ok n =>
                  (Http200
                     {| ur_message := "Successfully uploaded "
                                      +:+ str_of_nat (length uploaded_files)
                                      +:+ " document(s)";
                        ur_files_uploaded := map basename uploaded_files;
                        ur_total_documents := n |},
                   st2)
              end
          end
      end
  end.

(** [rebuild_vector_store]. *)
Definition rebuild_vector_store (st : State C) : HttpResult RebuildResponse * State C :=
  let rebuild_error (e : Exn) :=
    "An error occurred while rebuilding vector store: " +:+ exn_message e in
  match initialize_vector_store C settings true st with
  | (Raise e, st') => (HTTPException 500 (rebuild_error e), st')
  | (Ok _, st') =>
      match total_docs st' with
      | Raise e => (HTTPException 500 (rebuild_error e), st')
      | Ok n =>
          (Http200 {| rr_message := "Vector store rebuilt successfully";
                      rr_total_documents := n |},
           st')
      end
  end.

(** The start-up part of [lifespan]: the exception of a failed
    initialization is logged and raised again. *)
Definition lifespan_startup : M C unit := initialize_vector_store C settings false.

End Handlers.

(** A host for the concrete instance: paths are joined with [/], an upload
    becomes a readable file, [ntotal] counts the chunks. *)
Module DemoHost.

Definition with_readable (w : Demo.disk) (p content : string) : Demo.disk :=
  {| Demo.existing := Demo.existing w; Demo.saved := Demo.saved w;
     Demo.txt_files := Demo.txt_files w; Demo.md_files := Demo.md_files w;
     Demo.readable := (p, content) :: Demo.readable w |}.

Definition host (reject_empty : bool) : Host (Demo.collaborators reject_empty) :=
  Build_Host (Demo.collaborators reject_empty)
    (fun dir name => dir +:+ "/" +:+ name)
    (fun (w : Demo.disk) p content => (Ok tt, with_readable w p content))
    (fun v : list Document => Ok (Z.of_nat (length v))).

(** The concrete instance on a disk where an index cannot be saved. *)
Definition PermissionError : Exn :=
  {| exn_class := "PermissionError"; exn_message := "Permission denied" |}.

Definition collaborators_no_save : Collaborators := {|
  FAISS := list Document;
  World := Demo.disk;
  Path_exists := Path_exists (Demo.collaborators true);
  Path_str := Path_str (Demo.collaborators true);
  Path_mkdir := Path_mkdir (Demo.collaborators true);
  DirectoryLoader_load := DirectoryLoader_load (Demo.collaborators true);
  TextLoader_load := TextLoader_load (Demo.collaborators true);
  TextSplitter_split_documents := TextSplitter_split_documents (Demo.collaborators true);
  FAISS_from_documents := FAISS_from_documents (Demo.collaborators true);
  FAISS_load_local := FAISS_load_local (Demo.collaborators true);
  FAISS_save_local := fun w _ _ => (Raise PermissionError, w);
  FAISS_add_documents := FAISS_add_documents (Demo.collaborators true);
  RetrievalQA_invoke := RetrievalQA_invoke (Demo.collaborators true)
|}.

Definition host_no_save : Host collaborators_no_save :=
  Build_Host collaborators_no_save
    (fun dir name => dir +:+ "/" +:+ name)
    (fun (w : Demo.disk) p content => (Ok tt, with_readable w p content))
    (fun v : list Document => Ok (Z.of_nat (length v))).

(** A ready pipeline on that disk. *)
Definition st_ready_no_save : State collaborators_no_save :=
  Build_State collaborators_no_save
    [[Demo.policy]]
    (Some 0)
    (Some {| chain_store := 0; chain_k := 4; chain_prompt := prompt_template |})
    Demo.w_fresh.

(** A ready pipeline over an empty store, and one in an empty documents
    folder. *)
Definition st_empty_store : State (Demo.collaborators true) :=
  Build_State (Demo.collaborators true)
    [[]]
    (Some 0)
    (Some {| chain_store := 0; chain_k := 4; chain_prompt := prompt_template |})
    Demo.w_saved.

Definition st_ready_empty_folder : State (Demo.collaborators true) :=
  Build_State (Demo.collaborators true)
    [[Demo.policy]]
    (Some 0)
    (Some {| chain_store := 0; chain_k := 4; chain_prompt := prompt_template |})
    Demo.w_empty.

(** A disk with neither vector store nor documents folder. *)
Definition w_nothing : Demo.disk :=
  {| Demo.existing := []; Demo.saved := []; Demo.txt_files := []; Demo.md_files := [];
     Demo.readable := [] |}.

End DemoHost.

(** ** [app/logger.py] *)

Module Logging.

(** The levels of the [logging] module. *)
Definition NOTSET : Z := 0.
Definition DEBUG : Z := 10.
Definition INFO : Z := 20.

Inductive HandlerKind : Type :=
| FileHandler (log_file : string)
| StreamHandler_stdout.

Record Formatter := {
  fmt : string;
  datefmt : string
}.

Record Handler := {
  kind : HandlerKind;
  handler_level : Z;
  formatter : Formatter
}.

Record Logger := {
  level : Z;
  handlers : list Handler
}.

Definition detailed_formatter : Formatter :=
  {| fmt := "%(asctime)s - %(name)s - %(levelname)s - %(funcName)s:%(lineno)d - %(message)s";
     datefmt := "%Y-%m-%d %H:%M:%S" |}.

Definition simple_formatter : Formatter :=
  {| fmt := "%(asctime)s - %(levelname)s - %(message)s";
     datefmt := "%H:%M:%S" |}.

(** What [setup_logger] asks of its host: the file system and the clock. *)
Record Host := {
  World : Type;
  (** [Path(p).mkdir(exist_ok=True)] *)
  mkdir : World -> string -> Result unit * World;
  (** [datetime.now().strftime('%Y%m%d')] *)
  today : World -> string;
  (** [str(Path(dir) / name)] *)
  join : string -> string -> string;
  (** opening the log file, which [logging.FileHandler(path)] does *)
  open_log : World -> string -> Result unit * World
}.

Section SetupLogger.

Context (H : Host).

(** The loggers [logging.getLogger] knows, by name, and the world. *)
Record State := {
  loggers : gmap string Logger;
  world : World H
}.

(** [logging.getLogger(name)]: the logger of that name, created without
    level and handlers when there is none. *)
Definition getLogger (name : string) (reg : gmap string Logger) : Logger :=
  default {| level := NOTSET; handlers := [] |} (reg !! name).

(** [setup_logger(name)]; the logger it returns is named by [name]. *)
Definition setup_logger (name : string) (st : State) : Result string * State :=
  let logger := getLogger name (loggers st) in
  let reg := <[name := {| level := INFO; handlers := handlers logger |}]> (loggers st) in
  match handlers logger with
  | _ :: _ => (Ok name, {| loggers := reg; world := world st |})
  | [] =>
      match mkdir H (world st) "logs" with
      | (Raise e, w) => (Raise e, {| loggers := reg; world := w |})
      | (Ok _, w) =>
          let log_file := join H "logs" ("rag_api_" +:+ today H w +:+ ".log") in
          match open_log H w log_file with
          | (Raise e, w') => (Raise e, {| loggers := reg; world := w' |})
          | (Ok _, w') =>
              let file_handler :=
                {| kind := FileHandler log_file; handler_level := DEBUG;
                   formatter := detailed_formatter |} in
              let console_handler :=
                {| kind := StreamHandler_stdout; handler_level := INFO;
                   formatter := simple_formatter |} in
              (Ok name,
               {| loggers := <[name := {| level := INFO;
                                          handlers := [file_handler; console_handler] |}]>
                               (loggers st);
                  world := w' |})
          end
      end
  end.

End SetupLogger.

Arguments loggers {H} _.
Arguments world {H} _.


(** A host whose file system always succeeds, on a fixed day. *)
Definition demo_host : Host := {|
  World := list string;
  mkdir := fun w p => (Ok tt, p :: w);
  today := fun _ => "20240131";
  join := fun dir name => dir +:+ "/" +:+ name;
  open_log := fun w p => (Ok tt, p :: w)
|}.

End Logging.

(** ** Histories of calls *)

(** A call of an operation of the pipeline, or a change of the world made
    from outside between two calls. *)
Inductive Call (C : Collaborators) : Type :=
| CallInitialize (force_rebuild : bool)
| CallAddDocuments (file_paths : list string)
| CallAsk (question : string)
| Outside (w : World C).
Arguments CallInitialize {C} force_rebuild.
Arguments CallAddDocuments {C} file_paths.
Arguments CallAsk {C} question.
Arguments Outside {C} w.

(** The state a call leaves, whether it returns or raises. *)
Definition after (C : Collaborators) (settings : Settings) (c : Call C) (st : State C)
    : State C :=
  match c with
  | CallInitialize force_rebuild => (initialize_vector_store C settings force_rebuild st).2
  | CallAddDocuments file_paths => (add_documents C settings file_paths st).2
  | CallAsk question => (ask C question st).2
  | Outside w => with_world st w
  end.

Definition after_all (C : Collaborators) (settings : Settings) (calls : list (Call C))
    (st : State C) : State C :=
  fold_left (fun st c => after C settings c st) calls st.

(** What holds of the pipeline whatever was called: its references denote
    objects, and a QA chain, when there is one, comes with a vector store and
    carries the configured [k] and the prompt. *)
Definition consistent (C : Collaborators) (settings : Settings) (st : State C) : Prop :=
  well_formed st
  /\ (forall chain, self_qa_chain st = Some chain ->
        self_vector_store st <> None
        /\ chain_k chain = retrieval_k settings
        /\ chain_prompt chain = prompt_template).

(** The message of the guard of [ask]. *)
Definition not_initialized_message : string :=
  "QA chain not initialized. Call initialize_vector_store() first.".

(** ** Tactics *)

Ltac unfold_monad :=
  unfold bind, ret, raise, call, alloc, deref, get_state,
    set_vector_store, set_qa_chain, path_exists in *.

Ltac unfold_pipeline :=
  unfold fresh_build, initialize_vector_store, load_vector_store, save_vector_store,
    create_vector_store, split_documents, load_documents, _create_qa_chain,
    add_documents, store_add_documents, ask_question, ask in *;
  unfold_monad.

(** ** Facts on strings *)

Lemma append_nil_r (s : string) : s +:+ EmptyString = s.
Proof. induction s as [|c s IH]; simpl; [reflexivity | f_equal; exact IH]. Qed.

Lemma append_assoc (s t u : string) : (s +:+ t) +:+ u = s +:+ (t +:+ u).
Proof. induction s as [|c s IH]; simpl; [reflexivity | f_equal; exact IH]. Qed.

Lemma length_append (s t : string) :
  String.length (s +:+ t) = String.length s + String.length t.
Proof. induction s as [|c s IH]; simpl; [reflexivity | f_equal; exact IH]. Qed.

(** ** The string primitives meet their descriptions *)

Lemma starts_with_refl_app (old t : string) : Str.starts_with old (old +:+ t) = true.
Proof.
  induction old as [|a o IH]; simpl; [reflexivity |].
  rewrite Ascii.eqb_refl. exact IH.
Qed.

Lemma starts_with_split (old s : string) :
  Str.starts_with old s = true -> s = old +:+ Str.drop (String.length old) s.
Proof.
  revert s. induction old as [|a o IH]; intros s H; simpl.
  - destruct s; reflexivity.
  - destruct s as [|b s]; simpl in H; [discriminate |].
    apply andb_true_iff in H as [Hab Hrest].
    apply Ascii.eqb_eq in Hab as ->. simpl. f_equal. apply IH. exact Hrest.
Qed.

Lemma contains_app_self (old t : string) : Str.contains old (old +:+ t) = true.
Proof.
  pose proof (starts_with_refl_app old t) as H.
  destruct (old +:+ t); simpl; rewrite H; reflexivity.
Qed.

Lemma drop_length_le (n : nat) (s : string) :
  String.length (Str.drop n s) <= String.length s.
Proof.
  revert s. induction n as [|n IH]; intros [|c s]; simpl; try lia.
  specialize (IH s). lia.
Qed.

(** Passing over the characters of an occurrence. *)
Lemma replace_scan_skip (old new p t : string) :
  Str.replace_scan old new (String.length p) (p +:+ t) = Str.replace_scan old new 0 t.
Proof.
  induction p as [|c p IH]; simpl; [reflexivity | exact IH].
Qed.

Lemma replace_scan_occurrence (old new t : string) :
  old <> EmptyString ->
  Str.replace_scan old new 0 (old +:+ t) = new +:+ Str.replace_scan old new 0 t.
Proof.
  intros Hne. pose proof (starts_with_refl_app old t) as Hsw.
  destruct old as [|a o]; [congruence |].
  change (String a o +:+ t) with (String a (o +:+ t)) in *.
  cbn [Str.replace_scan]. rewrite Hsw.
  replace (String.length (String a o) - 1) with (String.length o) by (simpl; lia).
  rewrite replace_scan_skip. reflexivity.
Qed.

Lemma replace_scan_other (old new : string) (c : ascii) (s : string) :
  Str.starts_with old (String c s) = false ->
  Str.replace_scan old new 0 (String c s) = String c (Str.replace_scan old new 0 s).
Proof. intros H. cbn [Str.replace_scan]. rewrite H. reflexivity. Qed.

(** [str.replace] replaces every occurrence met by the scan. *)
Lemma replace_scan_wrapped_all (old new s : string) :
  old <> EmptyString -> wrapped_all old new s (Str.replace_scan old new 0 s).
Proof.
  intros Hne.
  assert (H : forall n s, String.length s <= n ->
                          wrapped_all old new s (Str.replace_scan old new 0 s)).
  { clear s. induction n as [|n IH]; intros s Hlen.
    - destruct s; [constructor | simpl in Hlen; lia].
    - destruct s as [|c s]; [constructor |].
      destruct (Str.starts_with old (String c s)) eqn:Hsw.
      + rewrite (starts_with_split _ _ Hsw). rewrite replace_scan_occurrence by exact Hne.
        apply wrapped_occurrence. apply IH.
        destruct old as [|a o]; [congruence |].
        simpl. simpl in Hlen. pose proof (drop_length_le (String.length o) s). lia.
      + rewrite replace_scan_other by exact Hsw. apply wrapped_other; [exact Hsw |].
        apply IH. simpl in Hlen. lia. }
  apply (H (String.length s)). lia.
Qed.

Lemma replace_wrapped_all (old new s : string) :
  old <> EmptyString -> wrapped_all old new s (Str.replace s old new).
Proof.
  intros Hne. pose proof (replace_scan_wrapped_all old new s Hne) as H.
  unfold Str.replace. destruct old; [congruence | exact H].
Qed.

(** The description fixes the result. *)
Lemma wrapped_all_unique (old new s r : string) :
  old <> EmptyString ->
  wrapped_all old new s r -> r = Str.replace s old new.
Proof.
  intros Hne H.
  assert (Hr : r = Str.replace_scan old new 0 s).
  { induction H as [|t r H IH|c s r Hsw H IH].
    - reflexivity.
    - rewrite replace_scan_occurrence by exact Hne. rewrite IH. reflexivity.
    - rewrite replace_scan_other by exact Hsw. rewrite IH. reflexivity. }
  rewrite Hr. unfold Str.replace. destruct old; [congruence | reflexivity].
Qed.

Lemma wrapped_all_no_occurrence (old new s r : string) :
  Str.contains old s = false -> wrapped_all old new s r -> r = s.
Proof.
  intros Hno H. induction H as [|t r H IH|c s r Hsw H IH].
  - reflexivity.
  - rewrite contains_app_self in Hno. discriminate.
  - simpl in Hno. apply orb_false_iff in Hno as [_ Hno]. rewrite IH by exact Hno.
    reflexivity.
Qed.

Lemma wrapped_all_length (old new s r : string) :
  String.length old <= String.length new ->
  wrapped_all old new s r -> String.length s <= String.length r.
Proof.
  intros Hlen H. induction H as [|t r H IH|c s r Hsw H IH]; simpl.
  - lia.
  - rewrite !length_append. lia.
  - lia.
Qed.

Lemma wrapped_all_length_lt (old new s r : string) :
  old <> EmptyString ->
  String.length old < String.length new ->
  Str.contains old s = true ->
  wrapped_all old new s r -> String.length s < String.length r.
Proof.
  intros Hne Hlen Hin H. induction H as [|t r H IH|c s r Hsw H IH].
  - destruct old; [congruence | discriminate].
  - rewrite !length_append.
    assert (String.length t <= String.length r)
      by (eapply wrapped_all_length; [| exact H]; lia).
    lia.
  - simpl in Hin. rewrite Hsw in Hin. simpl in Hin. specialize (IH Hin). simpl. lia.
Qed.

(** A replaced occurrence shows in the result. *)
Lemma wrapped_all_contains_new (old new s r : string) :
  old <> EmptyString ->
  Str.contains old s = true ->
  wrapped_all old new s r -> Str.contains new r = true.
Proof.
  intros Hne Hin H. induction H as [|t r H IH|c s r Hsw H IH].
  - destruct old; [congruence | discriminate].
  - apply contains_app_self.
  - simpl in Hin. rewrite Hsw in Hin. simpl in Hin. simpl.
    rewrite (IH Hin). apply orb_true_r.
Qed.

(** *** [strip] *)

Lemma all_space_app (s t : string) :
  all_space (s +:+ t) = all_space s && all_space t.
Proof.
  induction s as [|c s IH]; simpl; [reflexivity |].
  rewrite IH. apply andb_assoc.
Qed.

Lemma lstrip_spec (s : string) :
  exists ws, s = ws +:+ Str.lstrip s
             /\ all_space ws = true
             /\ Str.starts_with_space (Str.lstrip s) = false
             /\ (Str.starts_with_space s = true -> ws <> EmptyString).
Proof.
  induction s as [|c s (ws & Hs & Hws & Hst & _)].
  - exists EmptyString. repeat split. discriminate.
  - simpl. destruct (Str.is_space c) eqn:Hc.
    + exists (String c ws). simpl. rewrite Hc, Hws. repeat split; try assumption.
      * f_equal. exact Hs.
      * discriminate.
    + exists EmptyString. simpl. rewrite Hc. repeat split. discriminate.
Qed.

Lemma rstrip_spec (s : string) :
  exists ws, s = Str.rstrip s +:+ ws
             /\ all_space ws = true
             /\ ends_with_space (Str.rstrip s) = false
             /\ (Str.starts_with_space s = false ->
                 Str.starts_with_space (Str.rstrip s) = false).
Proof.
  induction s as [|c s (ws & Hs & Hws & Hend & _)].
  - exists EmptyString. repeat split.
  - simpl. destruct (Str.rstrip s) as [|d r] eqn:Hr.
    + simpl in Hs. subst s. destruct (Str.is_space c) eqn:Hc.
      * exists (String c ws). simpl. rewrite Hc, Hws. repeat split.
      * exists ws. simpl. rewrite Hc. repeat split. exact Hws.
    + exists ws. split; [simpl; f_equal; exact Hs |].
      split; [exact Hws |]. split; [exact Hend |]. intros H. exact H.
Qed.

(** [strip] removes the white space around a string, and nothing else. *)
Lemma strip_trimmed (s : string) : trimmed s (Str.strip s).
Proof.
  unfold trimmed, Str.strip.
  destruct (lstrip_spec s) as (ws1 & Hs & Hws1 & Hst & _).
  destruct (rstrip_spec (Str.lstrip s)) as (ws2 & Hl & Hws2 & Hend & Hst').
  exists ws1, ws2. split; [| auto].
  rewrite <- Hl. exact Hs.
Qed.

(** *** [re.split] at the sentence boundaries *)

Lemma starts_with_space_app_cons (p : string) (c : ascii) (t u : string) :
  Str.starts_with_space (p +:+ String c t) = Str.starts_with_space (p +:+ String c u).
Proof. destruct p; reflexivity. Qed.

Lemma split_scan_no_boundary (s : string) :
  has_boundary s = false -> Str.split_scan false s = [s].
Proof.
  induction s as [|c s IH]; simpl; [reflexivity |].
  intros H. apply orb_false_iff in H as [Hc Hs]. rewrite Hc, (IH Hs). reflexivity.
Qed.

(** Inside a separator the scan passes over the white space. *)
Lemma split_scan_in_sep (s : string) :
  Str.split_scan true s = Str.split_scan false (Str.lstrip s).
Proof.
  induction s as [|c s IH]; simpl; [reflexivity |].
  destruct (Str.is_space c) eqn:Hc; simpl; [exact IH | reflexivity].
Qed.

Lemma split_scan_cut (p : string) (c : ascii) (t : string) :
  has_boundary (p +:+ String c EmptyString) = false ->
  Str.is_stop c = true ->
  Str.starts_with_space t = true ->
  Str.split_scan false (p +:+ String c t)
  = (p +:+ String c EmptyString) :: Str.split_scan true t.
Proof.
  intros Hnb Hc Ht. induction p as [|d p IH]; simpl.
  - rewrite Hc, Ht. reflexivity.
  - simpl in Hnb. apply orb_false_iff in Hnb as [Hd Hnb].
    rewrite (starts_with_space_app_cons p c t EmptyString), Hd, (IH Hnb).
    reflexivity.
Qed.

Lemma lstrip_all_space (ws rest : string) :
  all_space ws = true -> Str.starts_with_space rest = false ->
  Str.lstrip (ws +:+ rest) = rest.
Proof.
  intros Hws Hrest. induction ws as [|c ws IH]; simpl.
  - destruct rest as [|d rest]; simpl in *; [reflexivity | now rewrite Hrest].
  - simpl in Hws. apply andb_true_iff in Hws as [Hc Hws]. rewrite Hc. apply IH, Hws.
Qed.

(** The description fixes the result of the scan. *)
Lemma split_at_stops_unique (s : string) (units : list string) :
  split_at_stops s units -> Str.re_split_sentences s = units.
Proof.
  unfold Str.re_split_sentences.
  induction 1 as [s Hnb | p c ws rest units Hnb Hc Hne Hws Hrest _ IH].
  - apply split_scan_no_boundary, Hnb.
  - rewrite split_scan_cut; try assumption.
    + rewrite split_scan_in_sep, lstrip_all_space, IH by assumption. reflexivity.
    + destruct ws as [|d ws]; [congruence |]. simpl in *.
      apply andb_true_iff in Hws as [Hd _]. exact Hd.
Qed.

Lemma split_at_stops_cons (c : ascii) (s : string) (units : list string) :
  Str.is_stop c && Str.starts_with_space s = false ->
  split_at_stops s units ->
  split_at_stops (String c s) (Str.cons_head c units).
Proof.
  intros Hc H. destruct H as [s Hnb | p d ws rest units Hnb Hd Hne Hws Hrest H].
  - simpl. apply split_last. simpl. rewrite Hc, Hnb. reflexivity.
  - simpl. apply (split_cut (String c p) d ws rest units); try assumption.
    simpl. rewrite Hnb, orb_false_r.
    rewrite (starts_with_space_app_cons p d EmptyString (ws +:+ rest)). exact Hc.
Qed.

(** The scan cuts a context into its sentence-like units. *)
Lemma re_split_sentences_spec (s : string) :
  split_at_stops s (Str.re_split_sentences s).
Proof.
  unfold Str.re_split_sentences.
  assert (H : forall n s, String.length s <= n ->
                          split_at_stops s (Str.split_scan false s)).
  { clear s. induction n as [|n IH]; intros s Hlen.
    - destruct s; [| simpl in Hlen; lia]. apply split_last. reflexivity.
    - destruct s as [|c s]; [apply split_last; reflexivity |].
      simpl. simpl in Hlen.
      destruct (Str.is_stop c && Str.starts_with_space s) eqn:Hc.
      + apply andb_true_iff in Hc as [Hstop Hsp].
        rewrite split_scan_in_sep.
        destruct (lstrip_spec s) as (ws & Hs & Hws & Hst & Hne).
        rewrite Hs at 1.
        apply (split_cut EmptyString c ws (Str.lstrip s)); try assumption.
        * simpl. rewrite Hstop. reflexivity.
        * apply Hne, Hsp.
        * apply IH. rewrite Hs in Hlen. rewrite length_append in Hlen. lia.
      + apply split_at_stops_cons; [exact Hc |]. apply IH. lia. }
  apply (H (String.length s)). lia.
Qed.

(** ** The highlighter *)

Lemma highlight_context_from (answer h : string) (contexts : list string) :
  fold_left (highlight_one_context answer) contexts h
  = fold_left (highlight_sentence answer) (sentences_of contexts) h.
Proof.
  revert h. induction contexts as [|context contexts IH]; intros h; simpl.
  - reflexivity.
  - unfold sentences_of. simpl. rewrite fold_left_app. apply IH.
Qed.

(** The two loops are one pass over the sentences; every step is given the
    same [answer]. *)
Lemma highlight_context_sentences (answer : string) (contexts : list string) :
  highlight_context answer contexts
  = fold_left (highlight_sentence answer) (sentences_of contexts) answer.
Proof. apply highlight_context_from. Qed.

Lemma emphasized_length (u : string) :
  String.length (emphasized u) = String.length u + 4.
Proof. unfold emphasized. simpl. rewrite length_append. simpl. lia. Qed.

Lemma long_nonempty (u : string) : 20 < String.length u -> u <> EmptyString.
Proof. intros H ->. simpl in H. lia. Qed.

Lemma highlight_sentence_match (answer h sentence : string) :
  matches answer sentence = true ->
  highlight_sentence answer h sentence
  = Str.replace h (Str.strip sentence) (emphasized (Str.strip sentence)).
Proof. unfold highlight_sentence, matches, emphasized. intros ->. reflexivity. Qed.

Lemma highlight_sentence_no_match (answer h sentence : string) :
  matches answer sentence = false -> highlight_sentence answer h sentence = h.
Proof. unfold highlight_sentence, matches. intros ->. reflexivity. Qed.

Lemma matches_iff (answer sentence : string) :
  matches answer sentence = true
  <-> 20 < String.length (Str.strip sentence)
      /\ Str.contains (Str.strip sentence) answer = true.
Proof.
  unfold matches. rewrite andb_true_iff, Nat.ltb_lt. reflexivity.
Qed.

Lemma highlight_sentence_wrapped_all (answer h sentence : string) :
  matches answer sentence = true ->
  wrapped_all (Str.strip sentence) (emphasized (Str.strip sentence)) h
    (highlight_sentence answer h sentence).
Proof.
  intros Hm. rewrite (highlight_sentence_match _ _ _ Hm).
  apply replace_wrapped_all, long_nonempty. apply matches_iff in Hm. tauto.
Qed.

Lemma highlight_sentence_length (answer h sentence : string) :
  String.length h <= String.length (highlight_sentence answer h sentence).
Proof.
  destruct (matches answer sentence) eqn:Hm.
  - eapply wrapped_all_length; [| apply highlight_sentence_wrapped_all, Hm].
    rewrite emphasized_length. lia.
  - rewrite highlight_sentence_no_match by exact Hm. lia.
Qed.

Lemma highlight_fold_length (answer h : string) (sentences : list string) :
  String.length h <= String.length (fold_left (highlight_sentence answer) sentences h).
Proof.
  revert h. induction sentences as [|s ss IH]; intros h; simpl; [lia |].
  pose proof (highlight_sentence_length answer h s).
  specialize (IH (highlight_sentence answer h s)). lia.
Qed.

(** The first match makes the answer longer. *)
Lemma highlight_sentence_grows (answer sentence : string) :
  matches answer sentence = true ->
  String.length answer < String.length (highlight_sentence answer answer sentence).
Proof.
  intros Hm. pose proof (proj1 (matches_iff _ _) Hm) as [Hlen Hin].
  eapply wrapped_all_length_lt; [| | exact Hin | apply highlight_sentence_wrapped_all, Hm].
  - apply long_nonempty, Hlen.
  - rewrite emphasized_length. lia.
Qed.

(** The output is the answer itself exactly when no sentence matched. *)
Lemma highlight_unchanged_iff (answer : string) (contexts : list string) :
  highlight_context answer contexts = answer
  <-> forallb (fun sentence => negb (matches answer sentence)) (sentences_of contexts) = true.
Proof.
  rewrite highlight_context_sentences.
  induction (sentences_of contexts) as [|s ss IH]; simpl.
  - tauto.
  - destruct (matches answer s) eqn:Hm; simpl.
    + split; [| discriminate]. intros Heq. exfalso.
      pose proof (highlight_sentence_grows answer s Hm).
      pose proof (highlight_fold_length answer (highlight_sentence answer answer s) ss).
      rewrite Heq in *. lia.
    + rewrite highlight_sentence_no_match by exact Hm. exact IH.
Qed.

(** C4. For every answer and contexts: each context is cut into its
    sentence-like units at a [.], [!] or [?] followed by white space; each
    unit is trimmed; the units are gone through in order.  A trimmed unit
    longer than 20 characters that occurs in the answer has every occurrence
    in the working string wrapped in the emphasis markers; a unit of 20
    characters or fewer, or one that does not occur in the answer, changes
    nothing. *)
Theorem highlight_context_wraps_matching_units (answer : string) (contexts : list string) :
  (forall context,
      split_at_stops context (Str.re_split_sentences context)
      /\ (forall units, split_at_stops context units ->
                        Str.re_split_sentences context = units))
  /\ (forall sentence, trimmed sentence (Str.strip sentence))
  /\ highlight_context answer contexts
     = fold_left (highlight_sentence answer) (sentences_of contexts) answer
  /\ (forall h sentence,
        20 < String.length (Str.strip sentence) ->
        Str.contains (Str.strip sentence) answer = true ->
        wrapped_all (Str.strip sentence) (emphasized (Str.strip sentence)) h
          (highlight_sentence answer h sentence)
        /\ (Str.contains (Str.strip sentence) h = true ->
            Str.contains (emphasized (Str.strip sentence))
              (highlight_sentence answer h sentence) = true))
  /\ (forall h sentence,
        String.length (Str.strip sentence) <= 20
        \/ Str.contains (Str.strip sentence) answer = false ->
        highlight_sentence answer h sentence = h).
Proof.
  split; [| split; [| split; [| split]]].
  - intros context. split.
    + apply re_split_sentences_spec.
    + apply split_at_stops_unique.
  - apply strip_trimmed.
  - apply highlight_context_sentences.
  - intros h sentence Hlen Hin.
    assert (Hm : matches answer sentence = true) by (apply matches_iff; auto).
    pose proof (highlight_sentence_wrapped_all answer h sentence Hm) as Hw.
    split; [exact Hw |]. intros Hh.
    eapply wrapped_all_contains_new; [| exact Hh | exact Hw].
    apply long_nonempty, Hlen.
  - intros h sentence Hcase. apply highlight_sentence_no_match.
    unfold matches. destruct Hcase as [Hlen | Hin].
    + apply Nat.ltb_ge in Hlen. rewrite Hlen. reflexivity.
    + rewrite Hin. apply andb_false_r.
Qed.

(** C10. The test of a trimmed unit reads the answer given to the
    highlighter, at every step of the pass, not the working string: a unit
    that does not occur in the answer is never wrapped, also when it occurs
    in the working string; a unit that occurs in the answer but no longer in
    the working string leaves the working string as it is; a matching unit
    is replaced in the working string. *)
Theorem highlight_tests_original_answer (answer : string) (contexts : list string) :
  highlight_context answer contexts
  = fold_left (highlight_sentence answer) (sentences_of contexts) answer
  /\ (forall h sentence,
        Str.contains (Str.strip sentence) answer = false ->
        highlight_sentence answer h sentence = h)
  /\ (forall h sentence,
        Str.contains (Str.strip sentence) h = false ->
        highlight_sentence answer h sentence = h)
  /\ (forall h sentence,
        20 < String.length (Str.strip sentence) ->
        Str.contains (Str.strip sentence) answer = true ->
        highlight_sentence answer h sentence
        = Str.replace h (Str.strip sentence) (emphasized (Str.strip sentence))).
Proof.
  split; [apply highlight_context_sentences | split; [| split]].
  - intros h sentence Hin. apply highlight_sentence_no_match.
    unfold matches. rewrite Hin. apply andb_false_r.
  - intros h sentence Hh. destruct (matches answer sentence) eqn:Hm.
    + eapply wrapped_all_no_occurrence; [exact Hh |].
      apply highlight_sentence_wrapped_all, Hm.
    + apply highlight_sentence_no_match, Hm.
  - intros h sentence Hlen Hin. apply highlight_sentence_match, matches_iff. auto.
Qed.

(** C8. With no contexts the highlighter returns the answer unchanged. *)
Theorem highlight_no_contexts (answer : string) :
  highlight_context answer [] = answer.
Proof. reflexivity. Qed.

(** ** Initialization *)

Section InitializeProperties.

Context (C : Collaborators) (settings : Settings).

Lemma initialize_load_path (st : State C) (idx : FAISS C) (w1 : World C) :
  Path_exists C (world st) (vector_store_path settings) = true ->
  FAISS_load_local C (world st) (vector_store_path settings) (embedding_model settings)
    = (Ok idx, w1) ->
  initialize_vector_store C settings false st = (Ok tt, ready_with settings st idx w1).
Proof.
  intros Hex Hload. unfold_pipeline. simpl. rewrite Hex. simpl.
  rewrite Hex. simpl. rewrite Hload. reflexivity.
Qed.

Lemma initialize_load_failure (st : State C) (e : Exn) (w1 : World C) :
  Path_exists C (world st) (vector_store_path settings) = true ->
  FAISS_load_local C (world st) (vector_store_path settings) (embedding_model settings)
    = (Raise e, w1) ->
  initialize_vector_store C settings false st = (Raise e, with_world st w1).
Proof.
  intros Hex Hload. unfold_pipeline. simpl. rewrite Hex. simpl.
  rewrite Hex. simpl. rewrite Hload. reflexivity.
Qed.

Lemma initialize_is_fresh_build (force_rebuild : bool) (st : State C) :
  Path_exists C (world st) (vector_store_path settings) && negb force_rebuild = false ->
  initialize_vector_store C settings force_rebuild st = fresh_build C settings st.
Proof.
  intros Hcond. unfold_pipeline. simpl. rewrite Hcond.
  destruct (Path_exists C (world st) (documents_path settings)); simpl; [| reflexivity].
  destruct (DirectoryLoader_load C (world st) _ _) as [[txt|e] w1]; simpl; [| reflexivity].
  destruct (DirectoryLoader_load C w1 _ _) as [[md|e] w2]; simpl; [| reflexivity].
  destruct (TextSplitter_split_documents C _ _ _ _) as [chunks|e]; simpl; [| reflexivity].
  destruct (FAISS_from_documents C w2 _ _) as [[idx|e] w3]; simpl; [| reflexivity].
  destruct (Path_mkdir C w3 _) as [[[]|e] w4]; simpl; [| reflexivity].
  rewrite list_lookup_middle by reflexivity. simpl.
  destruct (FAISS_save_local C w4 _ _) as [[[]|e] w5]; reflexivity.
Qed.

(** The outcome of the fresh-build path when the documents are read and
    split into [chunks]: it is decided by the index builder and, after it,
    by the two steps of persisting. *)
Lemma fresh_build_from_chunks (st : State C)
    (txt md chunks : list Document) (w1 w2 : World C) :
  Path_exists C (world st) (documents_path settings) = true ->
  DirectoryLoader_load C (world st) (Path_str C (documents_path settings)) "**/*.txt"
    = (Ok txt, w1) ->
  DirectoryLoader_load C w1 (Path_str C (documents_path settings)) "**/*.md"
    = (Ok md, w2) ->
  TextSplitter_split_documents C (chunk_size settings) (chunk_overlap settings)
    separators (txt ++ md) = Ok chunks ->
  fresh_build C settings st =
    match FAISS_from_documents C w2 (embedding_model settings) chunks with
    | (Raise e, w3) => (Raise e, with_world st w3)
    | (Ok idx, w3) =>
        match Path_mkdir C w3 (vector_store_path settings) with
        | (Raise e, w4) =>
            (Raise e, Build_State C (heap st ++ [idx]) (Some (length (heap st)))
                        (self_qa_chain st) w4)
        | (Ok _, w4) =>
            match FAISS_save_local C w4 idx (vector_store_path settings) with
            | (Raise e, w5) =>
                (Raise e, Build_State C (heap st ++ [idx]) (Some (length (heap st)))
                            (self_qa_chain st) w5)
            | (Ok _, w5) => (Ok tt, ready_with settings st idx w5)
            end
        end
    end.
Proof.
  intros Hdocs Htxt Hmd Hsplit. unfold_pipeline. simpl.
  rewrite Hdocs. simpl. rewrite Htxt. simpl. rewrite Hmd. simpl. rewrite Hsplit.
  destruct (FAISS_from_documents C w2 _ _) as [[idx|e] w3]; simpl; [| reflexivity].
  destruct (Path_mkdir C w3 _) as [[[]|e] w4]; simpl; [| reflexivity].
  rewrite list_lookup_middle by reflexivity. simpl.
  destruct (FAISS_save_local C w4 _ _) as [[[]|e] w5]; reflexivity.
Qed.

(** C6. [initialize_vector_store] takes one of two paths.  When the vector
    store location exists and no rebuild is forced, the persisted index is
    loaded and becomes the live index; the outcome is fixed by the location
    and the loader alone, nothing is asked of the documents location.  In
    every other case the documents are loaded from the documents location,
    split, embedded into a new index, which becomes the live index and is
    saved at the vector store location.  After either path the QA chain
    exists and reads the live index. *)
Theorem initialize_two_paths (force_rebuild : bool) (st : State C) :
  (forall idx w1,
      Path_exists C (world st) (vector_store_path settings) = true ->
      force_rebuild = false ->
      FAISS_load_local C (world st) (vector_store_path settings) (embedding_model settings)
        = (Ok idx, w1) ->
      initialize_vector_store C settings force_rebuild st = (Ok tt, ready_with settings st idx w1)
      /\ ready (ready_with settings st idx w1) = true
      /\ live_index (ready_with settings st idx w1) = Some idx)
  /\
  (forall txt md chunks idx w1 w2 w3 w4 w5,
      Path_exists C (world st) (vector_store_path settings) && negb force_rebuild = false ->
      Path_exists C (world st) (documents_path settings) = true ->
      DirectoryLoader_load C (world st) (Path_str C (documents_path settings)) "**/*.txt"
        = (Ok txt, w1) ->
      DirectoryLoader_load C w1 (Path_str C (documents_path settings)) "**/*.md"
        = (Ok md, w2) ->
      TextSplitter_split_documents C (chunk_size settings) (chunk_overlap settings)
        separators (txt ++ md) = Ok chunks ->
      FAISS_from_documents C w2 (embedding_model settings) chunks = (Ok idx, w3) ->
      Path_mkdir C w3 (vector_store_path settings) = (Ok tt, w4) ->
      FAISS_save_local C w4 idx (vector_store_path settings) = (Ok tt, w5) ->
      initialize_vector_store C settings force_rebuild st = (Ok tt, ready_with settings st idx w5)
      /\ ready (ready_with settings st idx w5) = true
      /\ live_index (ready_with settings st idx w5) = Some idx).
Proof.
  split.
  - intros idx w1 Hex -> Hload. split; [| split].
    + apply initialize_load_path; assumption.
    + reflexivity.
    + unfold live_index, ready_with. simpl. apply list_lookup_middle. reflexivity.
  - intros txt md chunks idx w1 w2 w3 w4 w5 Hcond Hdocs Htxt Hmd Hsplit Hbuild Hmk Hsave.
    split; [| split].
    + rewrite initialize_is_fresh_build by assumption.
      rewrite (fresh_build_from_chunks st txt md chunks w1 w2) by assumption.
      rewrite Hbuild, Hmk, Hsave. reflexivity.
    + reflexivity.
    + unfold live_index, ready_with. simpl. apply list_lookup_middle. reflexivity.
Qed.

End InitializeProperties.

Section FailureProperties.

Context (C : Collaborators) (settings : Settings).

(** C3, as the code has it.  When the vector store location is absent,
    [initialize_vector_store] with [force_rebuild=False] is the fresh-build
    path.  When the location exists but loading the index from it raises,
    the exception of the loader is the outcome of the initialization: nothing
    is built, the attributes of the pipeline keep their values.  An explicit
    [load_vector_store] of an absent location raises a [ValueError]. *)
Theorem initialize_fallback_only_when_absent (st : State C) :
  (Path_exists C (world st) (vector_store_path settings) = false ->
   initialize_vector_store C settings false st = fresh_build C settings st)
  /\ (forall e w1,
        Path_exists C (world st) (vector_store_path settings) = true ->
        FAISS_load_local C (world st) (vector_store_path settings) (embedding_model settings)
          = (Raise e, w1) ->
        initialize_vector_store C settings false st = (Raise e, with_world st w1))
  /\ (forall p,
        Path_exists C (world st) p = false ->
        load_vector_store C settings (Some p) st
        = (Raise (ValueError ("Vector store path does not exist: " +:+ p)), st)).
Proof.
  split; [| split].
  - intros Hex. apply initialize_is_fresh_build. rewrite Hex. reflexivity.
  - intros e w1 Hex Hload. apply initialize_load_failure; assumption.
  - intros p Hex. unfold_pipeline. simpl. rewrite Hex. reflexivity.
Qed.

(** C1, as the code has it.  With no vector store location and documents
    that yield no chunk, the empty list of chunks is handed to the index
    builder without a test of its own.  When the builder raises, its
    exception is the outcome and the attributes of the pipeline keep their
    values; when the builder returns an index and it is saved, the pipeline
    is ready over that index. *)
Theorem initialize_empty_corpus (st : State C) (txt md : list Document) (w1 w2 : World C) :
  Path_exists C (world st) (vector_store_path settings) = false ->
  Path_exists C (world st) (documents_path settings) = true ->
  DirectoryLoader_load C (world st) (Path_str C (documents_path settings)) "**/*.txt"
    = (Ok txt, w1) ->
  DirectoryLoader_load C w1 (Path_str C (documents_path settings)) "**/*.md"
    = (Ok md, w2) ->
  TextSplitter_split_documents C (chunk_size settings) (chunk_overlap settings)
    separators (txt ++ md) = Ok [] ->
  (forall e w3,
      FAISS_from_documents C w2 (embedding_model settings) [] = (Raise e, w3) ->
      initialize_vector_store C settings false st = (Raise e, with_world st w3)
      /\ self_vector_store (with_world st w3) = self_vector_store st
      /\ ready (with_world st w3) = ready st)
  /\ (forall idx w3 w4 w5,
      FAISS_from_documents C w2 (embedding_model settings) [] = (Ok idx, w3) ->
      Path_mkdir C w3 (vector_store_path settings) = (Ok tt, w4) ->
      FAISS_save_local C w4 idx (vector_store_path settings) = (Ok tt, w5) ->
      initialize_vector_store C settings false st = (Ok tt, ready_with settings st idx w5)
      /\ ready (ready_with settings st idx w5) = true).
Proof.
  intros Hvs Hdocs Htxt Hmd Hsplit.
  assert (Hinit : initialize_vector_store C settings false st = fresh_build C settings st).
  { apply initialize_is_fresh_build. rewrite Hvs. reflexivity. }
  rewrite Hinit, (fresh_build_from_chunks C settings st txt md [] w1 w2) by assumption.
  split.
  - intros e w3 Hbuild. rewrite Hbuild. repeat split.
  - intros idx w3 w4 w5 Hbuild Hmk Hsave. rewrite Hbuild, Hmk, Hsave. repeat split.
Qed.

(** The reading loop of [add_documents] changes the world only. *)
Lemma load_files_frame (file_paths : list string) (new_docs : list Document) (st : State C) :
  heap (load_files C file_paths new_docs st).2 = heap st
  /\ self_vector_store (load_files C file_paths new_docs st).2 = self_vector_store st
  /\ self_qa_chain (load_files C file_paths new_docs st).2 = self_qa_chain st.
Proof.
  revert new_docs st. induction file_paths as [|f rest IH]; intros new_docs st.
  - repeat split.
  - simpl. unfold bind, call.
    destruct (TextLoader_load C (world st) f) as [[docs|e] w]; simpl.
    + destruct (IH (new_docs ++ docs)
                  (Build_State C (heap st) (self_vector_store st) (self_qa_chain st) w))
        as (H1 & H2 & H3).
      simpl in *. auto.
    + repeat split.
Qed.

(** A file that cannot be read makes the loop raise.  [P] holds of the worlds
    the loop goes through. *)
Lemma load_files_unreadable (P : World C -> Prop) (file_paths : list string) (f : string) :
  In f file_paths ->
  (forall w p, P w -> P (TextLoader_load C w p).2) ->
  (forall w, P w -> exists e, (TextLoader_load C w f).1 = Raise e) ->
  forall new_docs st, P (world st) ->
    exists e, (load_files C file_paths new_docs st).1 = Raise e.
Proof.
  intros Hin Hstep Hbad. induction file_paths as [|g rest IH]; [destruct Hin |].
  intros new_docs st HP. simpl. unfold bind, call.
  pose proof (Hstep (world st) g HP) as HP'.
  destruct (TextLoader_load C (world st) g) as [[docs|e] w] eqn:Hload; simpl.
  - destruct Hin as [-> | Hin].
    + destruct (Hbad (world st) HP) as (e & Hf). rewrite Hload in Hf. discriminate.
    + apply IH; [exact Hin | exact HP'].
  - eauto.
Qed.

(** C5. When one of the files given to [add_documents] cannot be read (in
    the world of the call and in those the reading of the other files leads
    to, described by [P]), the call raises, and the heap of vector stores,
    [self.vector_store] and the QA chain are what they were before the call:
    the live index holds no chunk of any file of the call. *)
Theorem add_documents_unreadable_file
    (P : World C -> Prop) (file_paths : list string) (f : string) (st : State C) :
  In f file_paths ->
  P (world st) ->
  (forall w p, P w -> P (TextLoader_load C w p).2) ->
  (forall w, P w -> exists e, (TextLoader_load C w f).1 = Raise e) ->
  (exists e, (add_documents C settings file_paths st).1 = Raise e)
  /\ heap (add_documents C settings file_paths st).2 = heap st
  /\ self_vector_store (add_documents C settings file_paths st).2 = self_vector_store st
  /\ self_qa_chain (add_documents C settings file_paths st).2 = self_qa_chain st
  /\ live_index (add_documents C settings file_paths st).2 = live_index st.
Proof.
  intros Hin HP Hstep Hbad.
  assert (Hmain :
    (exists e, (add_documents C settings file_paths st).1 = Raise e)
    /\ heap (add_documents C settings file_paths st).2 = heap st
    /\ self_vector_store (add_documents C settings file_paths st).2 = self_vector_store st
    /\ self_qa_chain (add_documents C settings file_paths st).2 = self_qa_chain st).
  { unfold add_documents, bind, get_state, raise.
    destruct (self_vector_store st) as [r|] eqn:Hvs.
    - destruct (load_files_unreadable P file_paths f Hin Hstep Hbad [] st HP) as (e & He).
      destruct (load_files_frame file_paths [] st) as (H1 & H2 & H3).
      destruct (load_files C file_paths [] st) as [[docs|e'] st1]; simpl in *;
        [discriminate |].
      rewrite Hvs in H2. eauto.
    - simpl. rewrite Hvs. eauto. }
  destruct Hmain as (He & Hh & Hv & Hc). repeat split; try assumption.
  unfold live_index. rewrite Hh, Hv. reflexivity.
Qed.

End FailureProperties.

(** ** The QA chain is created last *)

Section ChainFrame.

Context (C : Collaborators) (settings : Settings).

Lemma keeps_chain_ret {A} (a : A) : keeps_chain (ret C a).
Proof. intros st. reflexivity. Qed.

Lemma keeps_chain_raise {A} (e : Exn) : keeps_chain (raise C (A := A) e).
Proof. intros st. reflexivity. Qed.

Lemma keeps_chain_bind {A B} (m : M C A) (k : A -> M C B) :
  keeps_chain m -> (forall a, keeps_chain (k a)) -> keeps_chain (bind C m k).
Proof.
  intros Hm Hk st. unfold bind. specialize (Hm st).
  destruct (m st) as [[a|e] st1]; simpl in *; [| exact Hm].
  rewrite (Hk a st1). exact Hm.
Qed.

Lemma keeps_chain_call {A} (f : World C -> Result A * World C) : keeps_chain (call C f).
Proof. intros st. unfold call. destruct (f (world st)). reflexivity. Qed.

Lemma keeps_chain_path_exists (p : string) : keeps_chain (path_exists C p).
Proof. intros st. reflexivity. Qed.

Lemma keeps_chain_get_state : keeps_chain (get_state C).
Proof. intros st. reflexivity. Qed.

Lemma keeps_chain_alloc (v : FAISS C) : keeps_chain (alloc C v).
Proof. intros st. reflexivity. Qed.

Lemma keeps_chain_set_vector_store (r : nat) : keeps_chain (set_vector_store C r).
Proof. intros st. reflexivity. Qed.

Lemma keeps_chain_deref (r : nat) : keeps_chain (deref C r).
Proof. intros st. unfold deref. destruct (heap st !! r); reflexivity. Qed.

Lemma keeps_chain_load_documents (path_arg : option string) :
  keeps_chain (load_documents C settings path_arg).
Proof.
  unfold load_documents. apply keeps_chain_bind; [apply keeps_chain_path_exists |].
  intros e. destruct (negb e); [apply keeps_chain_raise |].
  apply keeps_chain_bind; [apply keeps_chain_call |]. intros txt_docs.
  apply keeps_chain_bind; [apply keeps_chain_call |]. intros md_docs.
  apply keeps_chain_ret.
Qed.

Lemma keeps_chain_split_documents (documents : list Document) :
  keeps_chain (split_documents C settings documents).
Proof. intros st. reflexivity. Qed.

Lemma keeps_chain_create_vector_store (documents : list Document) :
  keeps_chain (create_vector_store C settings documents).
Proof.
  unfold create_vector_store. apply keeps_chain_bind; [apply keeps_chain_call |].
  intros v. apply keeps_chain_alloc.
Qed.

Lemma keeps_chain_load_vector_store (path_arg : option string) :
  keeps_chain (load_vector_store C settings path_arg).
Proof.
  unfold load_vector_store. apply keeps_chain_bind; [apply keeps_chain_path_exists |].
  intros e. destruct (negb e); [apply keeps_chain_raise |].
  apply keeps_chain_bind; [apply keeps_chain_call |]. intros v. apply keeps_chain_alloc.
Qed.

Lemma keeps_chain_save_vector_store (vector_store_arg : option nat)
    (path_arg : option string) :
  keeps_chain (save_vector_store C settings vector_store_arg path_arg).
Proof.
  unfold save_vector_store. apply keeps_chain_bind.
  { destruct vector_store_arg; [apply keeps_chain_ret |].
    apply keeps_chain_bind; [apply keeps_chain_get_state |].
    intros st0. apply keeps_chain_ret. }
  intros vs. apply keeps_chain_bind; [apply keeps_chain_call |]. intros ?.
  destruct vs as [r|]; [| apply keeps_chain_raise].
  apply keeps_chain_bind; [apply keeps_chain_deref |]. intros v. apply keeps_chain_call.
Qed.

(** An initialization that raises has not touched the QA chain: the chain is
    assigned by the last statement of [_create_qa_chain]. *)
Lemma initialize_raise_keeps_chain (force_rebuild : bool) (st st' : State C) (e : Exn) :
  initialize_vector_store C settings force_rebuild st = (Raise e, st') ->
  self_qa_chain st' = self_qa_chain st.
Proof.
  unfold initialize_vector_store.
  set (body := fun ex : bool =>
         if ex && negb force_rebuild
         then bind C (load_vector_store C settings None) (fun r => set_vector_store C r)
         else bind C (load_documents C settings None) (fun documents =>
              bind C (split_documents C settings documents) (fun chunks =>
              bind C (create_vector_store C settings chunks) (fun r =>
              bind C (set_vector_store C r) (fun _ =>
              save_vector_store C settings None None))))).
  assert (Hbody : forall ex, keeps_chain (body ex)).
  { intros ex. unfold body. destruct (ex && negb force_rebuild).
    - apply keeps_chain_bind; [apply keeps_chain_load_vector_store |].
      intros r. apply keeps_chain_set_vector_store.
    - apply keeps_chain_bind; [apply keeps_chain_load_documents |]. intros documents.
      apply keeps_chain_bind; [apply keeps_chain_split_documents |]. intros chunks.
      apply keeps_chain_bind; [apply keeps_chain_create_vector_store |]. intros r.
      apply keeps_chain_bind; [apply keeps_chain_set_vector_store |]. intros ?.
      apply keeps_chain_save_vector_store. }
  unfold bind at 1. unfold path_exists. unfold bind at 1.
  specialize (Hbody (Path_exists C (world st) (vector_store_path settings)) st).
  fold (body (Path_exists C (world st) (vector_store_path settings))).
  destruct (body (Path_exists C (world st) (vector_store_path settings)) st)
    as [[[]|e1] st1]; simpl in Hbody.
  - unfold _create_qa_chain, bind, get_state, raise, set_qa_chain.
    destruct (self_vector_store st1); [discriminate |].
    intros Heq. injection Heq as _ <-. exact Hbody.
  - intros Heq. injection Heq as _ <-. exact Hbody.
Qed.

End ChainFrame.

(** ** [ask] and the [/ask] handler *)

Section AskProperties.

Context (C : Collaborators).

(** C7. Whatever the question, [ask] on a pipeline whose QA chain has not been
    created raises the not-initialized error (a [ValueError] with the message
    of the guard), returns no answer record and leaves the state as it was;
    the [/ask] handler then answers with an error, not with a response.  An
    initialization that raises leaves the pipeline in such a state. *)
Theorem ask_not_ready_raises (question : string) (st : State C) :
  ready st = false ->
  ask C question st = (Raise (ValueError not_initialized_message), st)
  /\ (forall result st', ask C question st <> (Ok result, st'))
  /\ (forall resp st', ask_question C question st <> (Http200 resp, st'))
  /\ (forall settings force_rebuild e st',
        initialize_vector_store C settings force_rebuild st = (Raise e, st') ->
        ready st' = false
        /\ ask C question st' = (Raise (ValueError not_initialized_message), st')).
Proof.
  assert (Hask : forall st0 : State C, ready st0 = false ->
            ask C question st0 = (Raise (ValueError not_initialized_message), st0)).
  { intros st0 Hready. unfold ready in Hready. unfold_pipeline.
    destruct (self_qa_chain st0); [discriminate | reflexivity]. }
  intros Hready. split; [exact (Hask st Hready) | split; [| split]].
  - intros result st' Heq. rewrite (Hask st Hready) in Heq. discriminate.
  - intros resp st' Heq. unfold ask_question in Heq. rewrite (Hask st Hready) in Heq.
    discriminate.
  - intros settings force_rebuild e st' Hinit.
    assert (Hready' : ready st' = false).
    { unfold ready in *.
      rewrite (initialize_raise_keeps_chain C settings force_rebuild st st' e Hinit).
      exact Hready. }
    split; [exact Hready' | exact (Hask st' Hready')].
Qed.

(** C9. When the [/ask] handler answers, the response carries the answer of
    [ask]; its [highlighted_answer] is null exactly when the highlighter
    returned the answer itself, which is when no sentence of the contexts
    matched, and is the highlighter's output otherwise. *)
Theorem ask_question_highlighted_answer
    (question : string) (st st' : State C) (resp : QuestionResponse) :
  ask_question C question st = (Http200 resp, st') ->
  exists result,
    ask C question st = (Ok result, st')
    /\ answer resp = ar_answer result
    /\ sources resp = ar_sources result
    /\ (highlighted_answer resp = None
        <-> highlight_context (ar_answer result) (ar_contexts result) = ar_answer result)
    /\ (highlighted_answer resp = None
        <-> forallb (fun sentence => negb (matches (ar_answer result) sentence))
              (sentences_of (ar_contexts result)) = true)
    /\ (highlight_context (ar_answer result) (ar_contexts result) <> ar_answer result
        -> highlighted_answer resp
           = Some (highlight_context (ar_answer result) (ar_contexts result))).
Proof.
  unfold ask_question. destruct (ask C question st) as [[result|e] st1] eqn:Hask;
    [| discriminate].
  intros Heq. injection Heq as <- <-. exists result. simpl.
  rewrite <- highlight_unchanged_iff.
  destruct (String.eqb_spec (highlight_context (ar_answer result) (ar_contexts result))
              (ar_answer result)) as [Heq|Hne]; simpl.
  - repeat split; auto. intros Hne. contradiction.
  - repeat split; auto; try discriminate; intros Heq; contradiction.
Qed.

End AskProperties.

(** ** References stay valid *)

Section WellFormed.

Context (C : Collaborators) (settings : Settings).

Lemma hoare_ret {A} (P : State C -> Prop) (a : A) (Q : A -> State C -> Prop) :
  (forall st, P st -> Q a st) -> hoare P (ret C a) Q.
Proof. intros H st HP. apply H, HP. Qed.

Lemma hoare_raise {A} (P : State C -> Prop) (e : Exn) (Q : A -> State C -> Prop) :
  (forall st, P st -> well_formed st) -> hoare P (raise C e) Q.
Proof. intros H st HP. apply H, HP. Qed.

Lemma hoare_bind {A B} (P : State C -> Prop) (m : M C A) (Q : A -> State C -> Prop)
    (k : A -> M C B) (R : B -> State C -> Prop) :
  hoare P m Q -> (forall a, hoare (Q a) (k a) R) -> hoare P (bind C m k) R.
Proof.
  intros Hm Hk st HP. unfold bind. specialize (Hm st HP).
  destruct (m st) as [[a|e] st']; [apply Hk, Hm | exact Hm].
Qed.

Lemma hoare_weaken {A} (P P' : State C -> Prop) (m : M C A) (Q Q' : A -> State C -> Prop) :
  hoare P' m Q' -> (forall st, P st -> P' st) -> (forall a st, Q' a st -> Q a st) ->
  hoare P m Q.
Proof.
  intros Hm HP HQ st Hst. specialize (Hm st (HP st Hst)).
  destruct (m st) as [[a|e] st']; [apply HQ, Hm | exact Hm].
Qed.

Lemma well_formed_world_blind : world_blind (C := C) well_formed.
Proof. intros st w H. exact H. Qed.

Lemma hoare_call {A} (P : State C -> Prop) (f : World C -> Result A * World C) :
  world_blind P -> (forall st, P st -> well_formed st) ->
  hoare P (call C f) (fun _ => P).
Proof.
  intros Hblind Hwf st HP. unfold call.
  destruct (f (world st)) as [[a|e] w].
  - apply (Hblind st w HP).
  - apply (Hwf _ (Hblind st w HP)).
Qed.

Lemma hoare_path_exists (P : State C -> Prop) (p : string) :
  hoare P (path_exists C p) (fun _ => P).
Proof. intros st HP. exact HP. Qed.

Lemma hoare_get_state (P : State C -> Prop) :
  hoare P (get_state C) (fun st0 st => st = st0 /\ P st).
Proof. intros st HP. split; [reflexivity | exact HP]. Qed.

Lemma allocated_world_blind (r : nat) : world_blind (C := C) (allocated r).
Proof. intros st w H. exact H. Qed.

Lemma hoare_alloc (v : FAISS C) :
  hoare well_formed (alloc C v) allocated.
Proof.
  intros st [Hvs Hch]. unfold allocated. simpl. rewrite length_app. simpl.
  split; [lia |]. intros ch Hc. specialize (Hch ch Hc). lia.
Qed.

Lemma hoare_set_vector_store (r : nat) :
  hoare (allocated r) (set_vector_store C r) (fun _ => well_formed).
Proof.
  intros st [Hr Hch]. split; simpl; [| exact Hch].
  intros r' Heq. injection Heq as <-. exact Hr.
Qed.

Lemma hoare_load_documents (path_arg : option string) :
  hoare well_formed (load_documents C settings path_arg) (fun _ => well_formed).
Proof.
  unfold load_documents.
  eapply hoare_bind; [apply hoare_path_exists |]. intros e.
  destruct (negb e); [apply hoare_raise; auto |].
  eapply hoare_bind; [apply hoare_call; [apply well_formed_world_blind | auto] |].
  intros txt_docs.
  eapply hoare_bind; [apply hoare_call; [apply well_formed_world_blind | auto] |].
  intros md_docs. apply hoare_ret. auto.
Qed.

Lemma hoare_split_documents (documents : list Document) :
  hoare well_formed (split_documents C settings documents) (fun _ => well_formed).
Proof.
  intros st Hwf. unfold split_documents.
  destruct (TextSplitter_split_documents C _ _ _ _); exact Hwf.
Qed.

Lemma hoare_create_vector_store (documents : list Document) :
  hoare well_formed (create_vector_store C settings documents) allocated.
Proof.
  unfold create_vector_store.
  eapply hoare_bind; [apply hoare_call; [apply well_formed_world_blind | auto] |].
  intros v. apply hoare_alloc.
Qed.

Lemma hoare_load_vector_store (path_arg : option string) :
  hoare well_formed (load_vector_store C settings path_arg) allocated.
Proof.
  unfold load_vector_store.
  eapply hoare_bind; [apply hoare_path_exists |]. intros e.
  destruct (negb e); [apply hoare_raise; auto |].
  eapply hoare_bind; [apply hoare_call; [apply well_formed_world_blind | auto] |].
  intros v. apply hoare_alloc.
Qed.

Lemma hoare_deref (r : nat) :
  hoare well_formed (deref C r) (fun _ => well_formed).
Proof. intros st Hwf. unfold deref. destruct (heap st !! r); exact Hwf. Qed.

Lemma hoare_save_vector_store (vector_store_arg : option nat) (path_arg : option string) :
  hoare well_formed (save_vector_store C settings vector_store_arg path_arg)
    (fun _ => well_formed).
Proof.
  unfold save_vector_store.
  eapply hoare_bind with (Q := fun _ => well_formed).
  { destruct vector_store_arg.
    - apply hoare_ret. auto.
    - eapply hoare_bind; [apply hoare_get_state |]. intros st0.
      apply hoare_ret. intros st [_ H]. exact H. }
  intros vs.
  eapply hoare_bind; [apply hoare_call; [apply well_formed_world_blind | auto] |].
  intros ?. destruct vs as [r|]; [| apply hoare_raise; auto].
  eapply hoare_bind; [apply hoare_deref |]. intros v.
  apply hoare_call; [apply well_formed_world_blind | auto].
Qed.

Lemma hoare_create_qa_chain :
  hoare well_formed (_create_qa_chain C settings) (fun _ => well_formed).
Proof.
  intros st Hwf. unfold _create_qa_chain, bind, get_state, raise, set_qa_chain.
  destruct (self_vector_store st) as [r|] eqn:Hr; [| exact Hwf].
  destruct Hwf as [Hvs Hch]. split; simpl.
  - exact Hvs.
  - intros ch Heq. injection Heq as <-. simpl. apply Hvs, Hr.
Qed.

(** [initialize_vector_store] keeps the references valid, whether it returns
    or raises. *)
Lemma initialize_well_formed (force_rebuild : bool) :
  hoare well_formed (initialize_vector_store C settings force_rebuild)
    (fun _ => well_formed).
Proof.
  unfold initialize_vector_store.
  eapply hoare_bind; [apply hoare_path_exists |]. intros e.
  eapply hoare_bind with (Q := fun _ => well_formed);
    [| intros ?; apply hoare_create_qa_chain].
  destruct (e && negb force_rebuild).
  - eapply hoare_bind; [apply hoare_load_vector_store |]. intros r.
    apply hoare_set_vector_store.
  - eapply hoare_bind; [apply hoare_load_documents |]. intros documents.
    eapply hoare_bind; [apply hoare_split_documents |]. intros chunks.
    eapply hoare_bind; [apply hoare_create_vector_store |]. intros r.
    eapply hoare_bind; [apply hoare_set_vector_store |]. intros ?.
    apply hoare_save_vector_store.
Qed.

Lemma hoare_load_files (file_paths : list string) (new_docs : list Document) :
  hoare well_formed (load_files C file_paths new_docs) (fun _ => well_formed).
Proof.
  revert new_docs. induction file_paths as [|f rest IH]; intros new_docs; simpl.
  - apply hoare_ret. auto.
  - eapply hoare_bind; [apply hoare_call; [apply well_formed_world_blind | auto] |].
    intros docs. apply IH.
Qed.

Lemma hoare_store_add_documents (r : nat) (chunks : list Document) :
  hoare well_formed (store_add_documents C r chunks) (fun _ => well_formed).
Proof.
  intros st Hwf. unfold store_add_documents.
  destruct (heap st !! r) as [v|]; [| exact Hwf].
  destruct (FAISS_add_documents C (world st) v chunks) as [[res v'] w].
  assert (Hwf' : well_formed
                   (Build_State C (<[r:=v']> (heap st)) (self_vector_store st)
                      (self_qa_chain st) w)).
  { destruct Hwf as [Hvs Hch]. split; simpl; rewrite length_insert; assumption. }
  destruct res; exact Hwf'.
Qed.

Lemma add_documents_well_formed (file_paths : list string) :
  hoare well_formed (add_documents C settings file_paths) (fun _ => well_formed).
Proof.
  unfold add_documents.
  eapply hoare_bind; [apply hoare_get_state |]. intros st0.
  destruct (self_vector_store st0) as [r|].
  - eapply hoare_weaken with (P' := well_formed) (Q' := fun _ => well_formed);
      [| intros st [_ H]; exact H | auto].
    eapply hoare_bind; [apply hoare_load_files |]. intros new_docs.
    eapply hoare_bind; [apply hoare_split_documents |]. intros chunks.
    eapply hoare_bind; [apply hoare_store_add_documents |]. intros ?.
    apply hoare_save_vector_store.
  - apply hoare_raise. intros st [_ H]. exact H.
Qed.

(** On a well-formed state the chain of a ready pipeline reads an object of
    the heap: [ask] does not meet a dangling reference. *)
Lemma ask_reads_live_object (st : State C) (chain : RetrievalQA) :
  well_formed st -> self_qa_chain st = Some chain ->
  exists store, heap st !! chain_store chain = Some store.
Proof.
  intros [_ Hch] Hc. apply lookup_lt_is_Some_2. apply Hch, Hc.
Qed.

Lemma init_state_well_formed (w : World C) : well_formed (init_state C w).
Proof. split; discriminate. Qed.

End WellFormed.

(** ** The sources of an answer *)

Lemma basename_scan_no_slash (acc p : string) :
  Str.contains "/" p = false -> basename_scan acc p = acc +:+ p.
Proof.
  revert acc. induction p as [|c p IH]; intros acc Hno; simpl.
  - now rewrite append_nil_r.
  - simpl in Hno. rewrite (Ascii.eqb_sym c) .
    destruct (Ascii.eqb "/" c).
    { discriminate. }
    simpl in Hno. rewrite IH by exact Hno.
    rewrite append_assoc. reflexivity.
Qed.

Lemma basename_scan_slash (acc dir name : string) :
  basename_scan acc (dir +:+ String "/" name) = basename_scan EmptyString name.
Proof.
  revert acc. induction dir as [|c dir IH]; intros acc; simpl.
  - reflexivity.
  - destruct (Ascii.eqb c "/"); apply IH.
Qed.

(** [basename] keeps what follows the last [/]. *)
Lemma basename_last_component (dir name : string) :
  Str.contains "/" name = false ->
  basename name = name /\ basename (dir +:+ String "/" name) = name.
Proof.
  intros Hno. unfold basename. rewrite basename_scan_slash.
  rewrite basename_scan_no_slash by exact Hno. auto.
Qed.

Lemma list_set_spec (names : list string) :
  NoDup (list_set names) /\ (forall s, s ∈ list_set names <-> s ∈ names).
Proof.
  unfold list_set. split.
  - apply NoDup_elements.
  - intros s. rewrite elem_of_elements, elem_of_list_to_set. reflexivity.
Qed.

Section SourcesProperties.

Context (C : Collaborators).

(** C2, as the code has it.  The sources of an answer are the base names
    (what follows the last [/]) of the ["source"] metadata of the retrieved
    chunks, ["unknown"] standing for a missing one; each distinct base name
    is listed once.  Nothing else is changed in a name: a source without [/]
    is its own base name. *)
Theorem ask_sources_distinct_basenames
    (question : string) (st st' : State C) (result : AskResult) :
  ask C question st = (Ok result, st') ->
  NoDup (ar_sources result)
  /\ (forall s, s ∈ ar_sources result
                <-> exists doc, doc ∈ ar_source_documents result /\ source_name doc = s)
  /\ (forall doc dir name,
        metadata doc !! "source" = Some (dir +:+ String "/" name) ->
        Str.contains "/" name = false -> source_name doc = name)
  /\ (forall doc name,
        metadata doc !! "source" = Some name ->
        Str.contains "/" name = false -> source_name doc = name)
  /\ (forall doc, metadata doc !! "source" = None -> source_name doc = "unknown").
Proof.
  intros Hask. unfold ask, bind, get_state, raise, deref, call, ret in Hask.
  destruct (self_qa_chain st) as [chain|]; [| discriminate].
  destruct (heap st !! chain_store chain) as [store|]; [| discriminate].
  simpl in Hask.
  destruct (RetrievalQA_invoke C (world st) store _ _ question) as [[res|e] w];
    [| discriminate].
  injection Hask as <- <-. simpl.
  destruct (list_set_spec (map source_name (default [] (cr_source_documents res))))
    as [Hnd Hmem].
  split; [exact Hnd | split; [| split; [| split]]].
  - intros s. rewrite Hmem, list_elem_of_In, in_map_iff. split.
    + intros (doc & Hs & Hin). exists doc. rewrite list_elem_of_In. auto.
    + intros (doc & Hin & Hs). exists doc. rewrite list_elem_of_In in Hin. auto.
  - intros doc dir name Hsrc Hno. unfold source_name. rewrite Hsrc. simpl.
    apply basename_last_component. exact Hno.
  - intros doc name Hsrc Hno. unfold source_name. rewrite Hsrc. simpl.
    apply (basename_last_component EmptyString). exact Hno.
  - intros doc Hsrc. unfold source_name. rewrite Hsrc. reflexivity.
Qed.

End SourcesProperties.

(** ** The properties on concrete runs *)

Lemma ask_not_ready_raises_witness :
  ready (init_state (Demo.collaborators true) Demo.w_fresh) = false
  /\ ask (Demo.collaborators true) "What is the return window?"
       (init_state (Demo.collaborators true) Demo.w_fresh)
     = (Raise (ValueError not_initialized_message),
        init_state (Demo.collaborators true) Demo.w_fresh)
  /\ ask (Demo.collaborators true) "What is the return window?"
       (initialize_vector_store (Demo.collaborators true) default_settings false
          (init_state (Demo.collaborators true) Demo.w_empty)).2
     = (Raise (ValueError not_initialized_message),
        init_state (Demo.collaborators true) Demo.w_empty).
Proof.
  split; [reflexivity | split].
  - apply (ask_not_ready_raises (Demo.collaborators true) "What is the return window?"
             (init_state (Demo.collaborators true) Demo.w_fresh)).
    reflexivity.
  - apply (proj2 (proj2 (proj2
             (ask_not_ready_raises (Demo.collaborators true) "What is the return window?"
                (init_state (Demo.collaborators true) Demo.w_empty) eq_refl)))
             default_settings false Demo.IndexError
             (init_state (Demo.collaborators true) Demo.w_empty)).
    reflexivity.
Defined.

Lemma ask_question_highlighted_answer_witness :
  exists resp st',
    ask_question (Demo.collaborators true) "What is the return window?" Demo.st_two_folders
    = (Http200 resp, st')
    /\ exists result,
         ask (Demo.collaborators true) "What is the return window?" Demo.st_two_folders
         = (Ok result, st')
         /\ answer resp = ar_answer result
         /\ sources resp = ar_sources result
         /\ (highlighted_answer resp = None
             <-> highlight_context (ar_answer result) (ar_contexts result) = ar_answer result)
         /\ (highlighted_answer resp = None
             <-> forallb (fun sentence => negb (matches (ar_answer result) sentence))
                   (sentences_of (ar_contexts result)) = true)
         /\ (highlight_context (ar_answer result) (ar_contexts result) <> ar_answer result
             -> highlighted_answer resp
                = Some (highlight_context (ar_answer result) (ar_contexts result))).
Proof.
  eexists. eexists. split; [reflexivity |].
  apply (ask_question_highlighted_answer (Demo.collaborators true)).
  reflexivity.
Defined.

Lemma initialize_two_paths_witness :
  (initialize_vector_store (Demo.collaborators true) default_settings false
     (init_state (Demo.collaborators true) Demo.w_saved)
   = (Ok tt, ready_with default_settings
               (init_state (Demo.collaborators true) Demo.w_saved)
               [Demo.policy] Demo.w_saved))
  /\
  (initialize_vector_store (Demo.collaborators true) default_settings true
     (init_state (Demo.collaborators true) Demo.w_fresh)
   = (Ok tt, ready_with default_settings
               (init_state (Demo.collaborators true) Demo.w_fresh)
               [Demo.policy]
               (Demo.with_saved (Demo.with_existing Demo.w_fresh "./vector_store")
                  "./vector_store" [Demo.policy]))).
Proof.
  split.
  - apply (proj1 (initialize_two_paths (Demo.collaborators true) default_settings false
                    (init_state (Demo.collaborators true) Demo.w_saved))
             [Demo.policy] Demo.w_saved); reflexivity.
  - apply (proj2 (initialize_two_paths (Demo.collaborators true) default_settings true
                    (init_state (Demo.collaborators true) Demo.w_fresh))
             [Demo.policy] [] [Demo.policy] [Demo.policy]
             Demo.w_fresh Demo.w_fresh Demo.w_fresh
             (Demo.with_existing Demo.w_fresh "./vector_store")
             (Demo.with_saved (Demo.with_existing Demo.w_fresh "./vector_store")
                "./vector_store" [Demo.policy])); reflexivity.
Defined.

(** The location exists, the loader raises: the initialization raises what the
    loader raised, although the fresh-build path would have succeeded. *)
Lemma initialize_no_fallback_on_invalid_index :
  Path_exists (Demo.collaborators true) Demo.w_corrupt "./vector_store" = true
  /\ (initialize_vector_store (Demo.collaborators true) default_settings false
        (init_state (Demo.collaborators true) Demo.w_corrupt)).1
     = Raise (Demo.RuntimeError "could not open ./vector_store")
  /\ ready (initialize_vector_store (Demo.collaborators true) default_settings false
              (init_state (Demo.collaborators true) Demo.w_corrupt)).2 = false
  /\ (fresh_build (Demo.collaborators true) default_settings
        (init_state (Demo.collaborators true) Demo.w_corrupt)).1 = Ok tt.
Proof. repeat split. Qed.

Lemma initialize_fallback_only_when_absent_witness :
  initialize_vector_store (Demo.collaborators true) default_settings false
    (init_state (Demo.collaborators true) Demo.w_fresh)
  = fresh_build (Demo.collaborators true) default_settings
      (init_state (Demo.collaborators true) Demo.w_fresh)
  /\ initialize_vector_store (Demo.collaborators true) default_settings false
       (init_state (Demo.collaborators true) Demo.w_corrupt)
     = (Raise (Demo.RuntimeError "could not open ./vector_store"),
        init_state (Demo.collaborators true) Demo.w_corrupt)
  /\ load_vector_store (Demo.collaborators true) default_settings (Some "./elsewhere")
       (init_state (Demo.collaborators true) Demo.w_fresh)
     = (Raise (ValueError "Vector store path does not exist: ./elsewhere"),
        init_state (Demo.collaborators true) Demo.w_fresh).
Proof.
  split; [| split].
  - apply (initialize_fallback_only_when_absent (Demo.collaborators true) default_settings
             (init_state (Demo.collaborators true) Demo.w_fresh)).
    reflexivity.
  - apply (proj1 (proj2 (initialize_fallback_only_when_absent (Demo.collaborators true)
                           default_settings
                           (init_state (Demo.collaborators true) Demo.w_corrupt)))
             (Demo.RuntimeError "could not open ./vector_store") Demo.w_corrupt);
      reflexivity.
  - apply (proj2 (proj2 (initialize_fallback_only_when_absent (Demo.collaborators true)
                           default_settings
                           (init_state (Demo.collaborators true) Demo.w_fresh)))
             "./elsewhere").
    reflexivity.
Defined.

(** No persisted index and an empty documents folder.  With a builder that
    rejects an empty list the initialization raises the builder's
    [IndexError], which is not an [EmptyCorpusError]; with a builder that
    accepts it the initialization succeeds and the pipeline is ready over an
    empty index. *)
Lemma initialize_empty_corpus_not_surfaced :
  (initialize_vector_store (Demo.collaborators true) default_settings false
     (init_state (Demo.collaborators true) Demo.w_empty)).1
  = Raise {| exn_class := "IndexError"; exn_message := "list index out of range" |}
  /\ (forall msg,
        (initialize_vector_store (Demo.collaborators true) default_settings false
           (init_state (Demo.collaborators true) Demo.w_empty)).1
        <> Raise {| exn_class := "EmptyCorpusError"; exn_message := msg |})
  /\ (initialize_vector_store (Demo.collaborators false) default_settings false
        (init_state (Demo.collaborators false) Demo.w_empty)).1 = Ok tt
  /\ ready (initialize_vector_store (Demo.collaborators false) default_settings false
              (init_state (Demo.collaborators false) Demo.w_empty)).2 = true
  /\ live_index (initialize_vector_store (Demo.collaborators false) default_settings false
                   (init_state (Demo.collaborators false) Demo.w_empty)).2 = Some [].
Proof.
  split; [reflexivity | split; [| repeat split]].
  intros msg Heq. vm_compute in Heq. discriminate.
Qed.

Lemma initialize_empty_corpus_witness :
  initialize_vector_store (Demo.collaborators true) default_settings false
    (init_state (Demo.collaborators true) Demo.w_empty)
  = (Raise Demo.IndexError, init_state (Demo.collaborators true) Demo.w_empty)
  /\ ready (init_state (Demo.collaborators true) Demo.w_empty) = false.
Proof.
  split; [| reflexivity].
  apply (proj1 (initialize_empty_corpus (Demo.collaborators true) default_settings
                  (init_state (Demo.collaborators true) Demo.w_empty)
                  [] [] Demo.w_empty Demo.w_empty
                  eq_refl eq_refl eq_refl eq_refl eq_refl)
           Demo.IndexError Demo.w_empty).
  reflexivity.
Defined.

Lemma add_documents_unreadable_file_witness :
  (exists e,
     (add_documents (Demo.collaborators true) default_settings
        ["documents/faq.txt"; "documents/missing.txt"] Demo.st_ready).1 = Raise e)
  /\ live_index
       (add_documents (Demo.collaborators true) default_settings
          ["documents/faq.txt"; "documents/missing.txt"] Demo.st_ready).2
     = live_index Demo.st_ready.
Proof.
  assert (Hin : In "documents/missing.txt" ["documents/faq.txt"; "documents/missing.txt"])
    by (right; left; reflexivity).
  assert (Hstep : forall (w : World (Demo.collaborators true)) p,
             w = Demo.w_fresh ->
             (TextLoader_load (Demo.collaborators true) w p).2 = Demo.w_fresh).
  { intros w p ->. simpl. destruct (String.eqb p "documents/faq.txt"); reflexivity. }
  assert (Hbad : forall w : World (Demo.collaborators true),
             w = Demo.w_fresh ->
             exists e, (TextLoader_load (Demo.collaborators true) w
                          "documents/missing.txt").1 = Raise e).
  { intros w ->. eexists. reflexivity. }
  destruct (add_documents_unreadable_file (Demo.collaborators true) default_settings
              (fun w => w = Demo.w_fresh)
              ["documents/faq.txt"; "documents/missing.txt"] "documents/missing.txt"
              Demo.st_ready Hin eq_refl Hstep Hbad) as (He & _ & _ & _ & Hlive).
  split; assumption.
Defined.

(** Two retrieved chunks with distinct source paths, one entry in the
    sources, which is neither of the two paths. *)
Lemma ask_sources_collapse_distinct_paths :
  exists result st',
    ask (Demo.collaborators true) "What is the return window?" Demo.st_two_folders
    = (Ok result, st')
    /\ map (fun d => default "unknown" (metadata d !! "source")) (ar_source_documents result)
       = ["documents/eu/policy.txt"; "documents/us/policy.txt"]
    /\ ar_sources result = ["policy.txt"].
Proof.
  eexists. eexists. split; [reflexivity |]. split; vm_compute; reflexivity.
Qed.

Lemma ask_sources_distinct_basenames_witness :
  exists result st',
    ask (Demo.collaborators true) "What is the return window?" Demo.st_two_folders
    = (Ok result, st')
    /\ NoDup (ar_sources result)
    /\ (forall s, s ∈ ar_sources result
                  <-> exists doc, doc ∈ ar_source_documents result /\ source_name doc = s).
Proof.
  eexists. eexists. split; [reflexivity |].
  destruct (ask_sources_distinct_basenames (Demo.collaborators true)
              "What is the return window?" Demo.st_two_folders _ _ eq_refl)
    as (Hnd & Hmem & _).
  split; assumption.
Defined.


Lemma highlight_context_wraps_matching_units_witness :
  wrapped_all "Returns are accepted within 30 days."
    "**Returns are accepted within 30 days.**"
    "Yes. Returns are accepted within 30 days."
    (highlight_sentence "Yes. Returns are accepted within 30 days."
       "Yes. Returns are accepted within 30 days."
       " Returns are accepted within 30 days.")
  /\ highlight_sentence "Yes. Returns are accepted within 30 days."
       "Yes. Returns are accepted within 30 days."
       "Refunds take 5 days." = "Yes. Returns are accepted within 30 days."
  /\ highlight_sentence "Yes. Returns are accepted within 30 days."
       "Yes. Returns are accepted within 30 days."
       "Refunds take 5 business days." = "Yes. Returns are accepted within 30 days.".
Proof.
  destruct (highlight_context_wraps_matching_units
              "Yes. Returns are accepted within 30 days."
              ["Returns are accepted within 30 days. Refunds take 5 business days."])
    as (_ & _ & _ & Hwrap & Hnone).
  split; [| split].
  - apply (Hwrap "Yes. Returns are accepted within 30 days."
             " Returns are accepted within 30 days.").
    + vm_compute. lia.
    + reflexivity.
  - apply Hnone. left. vm_compute. lia.
  - apply Hnone. right. reflexivity.
Defined.

Lemma highlight_tests_original_answer_witness :
  Str.contains "**Returns are accepted within 30 days.**"
    "**Returns are accepted within 30 days.**" = true
  /\ highlight_sentence "Returns are accepted within 30 days."
       "**Returns are accepted within 30 days.**"
       "**Returns are accepted within 30 days.**"
     = "**Returns are accepted within 30 days.**"
  /\ Str.contains "two days and accept returns within 30 days."
       "We ship all orders within two days and accept returns within 30 days." = true
  /\ highlight_sentence
       "We ship all orders within two days and accept returns within 30 days."
       "**We ship all orders within two days and accept returns** within 30 days."
       "two days and accept returns within 30 days."
     = "**We ship all orders within two days and accept returns** within 30 days.".
Proof.
  split; [reflexivity | split; [| split; [reflexivity |]]].
  - apply (proj1 (proj2 (highlight_tests_original_answer
                           "Returns are accepted within 30 days." []))).
    reflexivity.
  - apply (proj1 (proj2 (proj2 (highlight_tests_original_answer
             "We ship all orders within two days and accept returns within 30 days."
             [])))).
    reflexivity.
Defined.

(** ** Runs of the string primitives and of the highlighter *)

Example split_two_sentences :
  Str.re_split_sentences "Returns are accepted within 30 days. Refunds take 5 business days."
  = ["Returns are accepted within 30 days."; "Refunds take 5 business days."].
Proof. reflexivity. Qed.

Example split_keeps_stop_drops_run : Str.re_split_sentences "a. .  b" = ["a."; "."; "b"].
Proof. reflexivity. Qed.

Example split_trailing_space : Str.re_split_sentences "Hello. " = ["Hello."; EmptyString].
Proof. reflexivity. Qed.

Example split_no_boundary : Str.re_split_sentences " a b.c ?" = [" a b.c ?"].
Proof. reflexivity. Qed.

Example replace_non_overlapping : Str.replace "abcabcab" "abca" "X" = "Xbcab".
Proof. reflexivity. Qed.

Example replace_empty_old : Str.replace "abc" EmptyString "-" = "-a-b-c-".
Proof. reflexivity. Qed.

Example strip_both_sides : Str.strip "  a b  " = "a b".
Proof. reflexivity. Qed.

Example basename_path : basename "documents/eu/policy.txt" = "policy.txt".
Proof. reflexivity. Qed.

(** The scenario of the specification: one chunk, the answer is its first
    sentence. *)
Example highlight_policy :
  highlight_context "Returns are accepted within 30 days."
    ["Returns are accepted within 30 days. Refunds take 5 business days."]
  = "**Returns are accepted within 30 days.**".
Proof. reflexivity. Qed.

(** A unit that occurs in the working string only is not wrapped. *)
Example highlight_unit_with_markers :
  highlight_context "Returns are accepted within 30 days."
    ["Returns are accepted within 30 days."; "**Returns are accepted within 30 days.**"]
  = "**Returns are accepted within 30 days.**".
Proof. reflexivity. Qed.

(** A unit whose occurrence in the answer was broken by an earlier
    replacement changes nothing. *)
Example highlight_overlapping_units :
  highlight_context
    "We ship all orders within two days and accept returns within 30 days."
    ["We ship all orders within two days and accept returns";
     "two days and accept returns within 30 days."]
  = "**We ship all orders within two days and accept returns** within 30 days.".
Proof. reflexivity. Qed.

(** The fresh build on the one-document folder, then a question. *)
Example initialize_then_ask :
  (ask_question (Demo.collaborators true) "What is the return window?"
     (initialize_vector_store (Demo.collaborators true) default_settings false
        (init_state (Demo.collaborators true) Demo.w_fresh)).2).1
  = Http200 {| answer := "Returns are accepted within 30 days. Refunds take 5 business days.";
               sources := ["policy.txt"];
               highlighted_answer :=
                 Some "**Returns are accepted within 30 days.** **Refunds take 5 business days.**" |}.
Proof. vm_compute. reflexivity. Qed.

(** [add_documents] on a ready pipeline: the store grows in place, and the
    chain, which reads the same object, sees the new chunk. *)
Example add_documents_grows_live_index :
  live_index (add_documents (Demo.collaborators true) default_settings
                ["documents/faq.txt"] Demo.st_ready).2
  = Some [Demo.policy;
          Demo.doc "Shipping is free for orders above 50 euros." "documents/faq.txt"].
Proof. reflexivity. Qed.

(** * Further properties of the code *)

(** ** More on the highlighter *)

Lemma starts_with_length (sub s : string) :
  Str.starts_with sub s = true -> String.length sub <= String.length s.
Proof.
  revert s. induction sub as [|a sub IH]; intros [|b s] H; simpl in *;
    try lia; try discriminate.
  apply andb_true_iff in H as [_ H]. specialize (IH s H). lia.
Qed.

Lemma contains_length (sub s : string) :
  Str.contains sub s = true -> String.length sub <= String.length s.
Proof.
  induction s as [|c s IH]; simpl; intros H.
  - rewrite orb_false_r in H. apply (starts_with_length sub EmptyString H).
  - apply orb_true_iff in H as [H | H].
    + apply (starts_with_length sub (String c s) H).
    + specialize (IH H). lia.
Qed.

(** [sub in s] holds exactly when [s] is [sub] between two strings. *)
Lemma contains_iff (sub s : string) :
  Str.contains sub s = true <-> exists p q, s = p +:+ sub +:+ q.
Proof.
  split.
  - induction s as [|c s IH]; simpl; intros H.
    + rewrite orb_false_r in H. exists EmptyString, EmptyString.
      destruct sub; [reflexivity | discriminate].
    + apply orb_true_iff in H as [H | H].
      * exists EmptyString, (Str.drop (String.length sub) (String c s)).
        apply (starts_with_split sub (String c s) H).
      * destruct (IH H) as (p & q & ->). exists (String c p), q. reflexivity.
  - intros (p & q & ->). induction p as [|c p IH].
    + simpl. apply contains_app_self.
    + simpl. rewrite IH. apply orb_true_r.
Qed.

Lemma contains_trans (a b c : string) :
  Str.contains a b = true -> Str.contains b c = true -> Str.contains a c = true.
Proof.
  rewrite !contains_iff. intros (p & q & ->) (p' & q' & ->).
  exists (p' +:+ p), (q +:+ q'). rewrite !append_assoc. reflexivity.
Qed.

Lemma contains_emphasized (u : string) : Str.contains u (emphasized u) = true.
Proof. apply contains_iff. exists "**", "**". reflexivity. Qed.

(** X1. An answer of 20 characters or fewer, the empty answer among them,
    is never highlighted, whatever the contexts. *)
Theorem highlight_short_answer_unchanged (answer : string) (contexts : list string) :
  String.length answer <= 20 -> highlight_context answer contexts = answer.
Proof.
  intros Hlen. apply highlight_unchanged_iff. apply forallb_forall.
  intros sentence _. apply negb_true_iff.
  destruct (matches answer sentence) eqn:Hm; [| reflexivity].
  apply matches_iff in Hm as [Hlong Hin]. apply contains_length in Hin. lia.
Qed.

Lemma list_ascii_of_string_app (s t : string) :
  String.list_ascii_of_string (s +:+ t)
  = String.list_ascii_of_string s ++ String.list_ascii_of_string t.
Proof. induction s as [|c s IH]; simpl; [reflexivity | f_equal; exact IH]. Qed.

Lemma wrapped_all_emphasized_sublist (u s r : string) :
  wrapped_all u (emphasized u) s r ->
  String.list_ascii_of_string s `sublist_of` String.list_ascii_of_string r.
Proof.
  induction 1 as [|t r H IH|c s r Hsw H IH].
  - reflexivity.
  - unfold emphasized. rewrite !append_assoc, !list_ascii_of_string_app.
    apply sublist_inserts_l, sublist_app; [reflexivity |].
    apply sublist_inserts_l. exact IH.
  - simpl. apply sublist_skip. exact IH.
Qed.

Lemma highlight_sentence_sublist (answer h sentence : string) :
  String.list_ascii_of_string h
  `sublist_of` String.list_ascii_of_string (highlight_sentence answer h sentence).
Proof.
  destruct (matches answer sentence) eqn:Hm.
  - eapply wrapped_all_emphasized_sublist, highlight_sentence_wrapped_all, Hm.
  - rewrite highlight_sentence_no_match by exact Hm. reflexivity.
Qed.

(** X2. Highlighting only inserts characters: the answer is what remains of
    the highlighted answer when the inserted characters are deleted, so no
    character of the answer is lost, changed or reordered. *)
Theorem highlight_context_only_inserts (answer : string) (contexts : list string) :
  String.list_ascii_of_string answer
  `sublist_of` String.list_ascii_of_string (highlight_context answer contexts).
Proof.
  rewrite highlight_context_sentences.
  generalize (sentences_of contexts) as sentences. generalize answer at 1 3 as h.
  intros h sentences. revert h. induction sentences as [|s ss IH]; intros h; simpl.
  - reflexivity.
  - etransitivity; [apply (highlight_sentence_sublist answer h s) | apply IH].
Qed.

Lemma wrapped_all_emphasized_grows (u s r : string) :
  u <> EmptyString ->
  Str.contains u s = true ->
  wrapped_all u (emphasized u) s r -> String.length s + 4 <= String.length r.
Proof.
  intros Hne Hin H. induction H as [|t r H IH|c s r Hsw H IH].
  - destruct u; [congruence | discriminate].
  - rewrite !length_append, emphasized_length.
    assert (String.length t <= String.length r).
    { eapply wrapped_all_length; [| exact H]. rewrite emphasized_length. lia. }
    lia.
  - simpl in Hin. rewrite Hsw in Hin. simpl in Hin. specialize (IH Hin). simpl. lia.
Qed.

(** X3. Highlighting is not idempotent on a match.  When a matching unit
    occurs in the working string, the step wraps it, the unit still occurs
    in the result, and meeting the same sentence again (as with overlapping
    chunks) wraps it a second time: each of the two steps adds at least the
    four marker characters. *)
Theorem highlight_repeated_sentence_rewraps (answer h sentence : string) :
  matches answer sentence = true ->
  Str.contains (Str.strip sentence) h = true ->
  String.length h + 4 <= String.length (highlight_sentence answer h sentence)
  /\ Str.contains (Str.strip sentence) (highlight_sentence answer h sentence) = true
  /\ String.length (highlight_sentence answer h sentence) + 4
     <= String.length (highlight_sentence answer (highlight_sentence answer h sentence)
                         sentence).
Proof.
  intros Hm Hin.
  assert (Hne : Str.strip sentence <> EmptyString).
  { apply long_nonempty. apply matches_iff in Hm. tauto. }
  assert (Hin' : Str.contains (Str.strip sentence) (highlight_sentence answer h sentence)
                 = true).
  { eapply contains_trans; [apply contains_emphasized |].
    eapply wrapped_all_contains_new;
      [exact Hne | exact Hin | apply highlight_sentence_wrapped_all, Hm]. }
  split; [| split; [exact Hin' |]].
  - eapply wrapped_all_emphasized_grows;
      [exact Hne | exact Hin | apply highlight_sentence_wrapped_all, Hm].
  - eapply wrapped_all_emphasized_grows;
      [exact Hne | exact Hin' | apply highlight_sentence_wrapped_all, Hm].
Qed.

Lemma split_at_stops_shape (s : string) (units : list string) :
  split_at_stops s units ->
  units <> []
  /\ Forall (fun u => has_boundary u = false) units
  /\ (forall i u, units !! i = Some u -> S i < length units ->
        exists p c, u = p +:+ String c EmptyString /\ Str.is_stop c = true)
  /\ (forall u, units !! 0 = Some u -> Str.starts_with_space u = Str.starts_with_space s)
  /\ (forall i u, units !! S i = Some u -> Str.starts_with_space u = false)
  /\ sum_list (map String.length units) + length units <= S (String.length s).
Proof.
  induction 1 as [s Hnb | p c ws rest units Hnb Hc Hne Hws Hrest H IH].
  - split; [discriminate |]. split; [repeat constructor; exact Hnb |].
    split; [intros i u _ Hi; simpl in Hi; lia |].
    split; [intros u Hu; injection Hu as <-; reflexivity |].
    split; [intros i u Hu; discriminate |]. simpl. lia.
  - destruct IH as (Hnil & Hall & Hstop & Hfirst & Hrestu & Hlen).
    split; [discriminate |]. split; [constructor; assumption |].
    split; [| split; [| split]].
    + intros [|i] u Hu Hi; simpl in *.
      * injection Hu as <-. eauto.
      * apply (Hstop i u Hu). lia.
    + intros u Hu. injection Hu as <-. apply starts_with_space_app_cons.
    + intros [|i] u Hu; simpl in Hu.
      * rewrite (Hfirst u Hu). exact Hrest.
      * apply (Hrestu i u Hu).
    + simpl. rewrite !length_append. simpl. rewrite length_append.
      destruct ws; [congruence |]. simpl. lia.
Qed.

(** X4. The sentences [re.split] returns for a context: there is at least
    one; none holds a boundary (a [.], [!] or [?] followed by white space);
    every one but the last ends with [.], [!] or [?]; every one but the
    first starts with a character that is not white space (or is empty, at
    the end of the context); and together with one separating character
    each they are no longer than the context. *)
Theorem re_split_sentences_units (context : string) :
  Str.re_split_sentences context <> []
  /\ Forall (fun u => has_boundary u = false) (Str.re_split_sentences context)
  /\ (forall i u,
        Str.re_split_sentences context !! i = Some u ->
        S i < length (Str.re_split_sentences context) ->
        exists p c, u = p +:+ String c EmptyString /\ Str.is_stop c = true)
  /\ (forall i u,
        Str.re_split_sentences context !! S i = Some u ->
        Str.starts_with_space u = false)
  /\ sum_list (map String.length (Str.re_split_sentences context))
     + length (Str.re_split_sentences context) <= S (String.length context).
Proof.
  destruct (split_at_stops_shape context _ (re_split_sentences_spec context))
    as (H1 & H2 & H3 & _ & H5 & H6).
  auto.
Qed.

(** ** More on [ask] *)

Section AskFurther.

Context (C : Collaborators).

(** The state [ask] leaves differs from the one it was called in by the
    world only. *)
Lemma ask_final_state (question : string) (st : State C) :
  (ask C question st).2 = with_world st (world (ask C question st).2).
Proof.
  unfold ask, bind, get_state, raise, deref, call, ret, with_world.
  destruct (self_qa_chain st) as [chain|] eqn:Hc; simpl;
    [| destruct st; simpl in *; subst; reflexivity].
  destruct (heap st !! chain_store chain) as [store|]; simpl;
    [| destruct st; simpl in *; subst; reflexivity].
  destruct (RetrievalQA_invoke C (world st) store _ _ question) as [[res|e] w];
    simpl; rewrite Hc; reflexivity.
Qed.

(** X5. [ask] reads the pipeline and never changes it: whether it returns or
    raises, the vector store objects, [self.vector_store] and the QA chain
    are what they were. *)
Theorem ask_leaves_pipeline_unchanged (question : string) (st : State C) :
  heap (ask C question st).2 = heap st
  /\ self_vector_store (ask C question st).2 = self_vector_store st
  /\ self_qa_chain (ask C question st).2 = self_qa_chain st.
Proof.
  rewrite (ask_final_state question st). simpl. auto.
Qed.

End AskFurther.

Lemma contains_char_cons (a b : ascii) (s : string) :
  Str.contains (String a EmptyString) (String b s)
  = Ascii.eqb a b || Str.contains (String a EmptyString) s.
Proof. simpl. destruct s; rewrite andb_true_r; reflexivity. Qed.

Lemma contains_char_app (a : ascii) (s t : string) :
  Str.contains (String a EmptyString) (s +:+ t)
  = Str.contains (String a EmptyString) s || Str.contains (String a EmptyString) t.
Proof.
  induction s as [|b s IH].
  - reflexivity.
  - change (String b s +:+ t) with (String b (s +:+ t)).
    rewrite !contains_char_cons, IH. apply orb_assoc.
Qed.

Lemma basename_scan_no_separator (acc p : string) :
  Str.contains "/" acc = false -> Str.contains "/" (basename_scan acc p) = false.
Proof.
  revert acc. induction p as [|c p IH]; intros acc Hacc; simpl; [exact Hacc |].
  destruct (Ascii.eqb c "/") eqn:Hc.
  - apply IH. reflexivity.
  - apply IH. rewrite contains_char_app, Hacc, contains_char_cons.
    rewrite Ascii.eqb_sym, Hc. reflexivity.
Qed.

(** A base name holds no [/]. *)
Lemma basename_no_separator (p : string) : Str.contains "/" (basename p) = false.
Proof. apply basename_scan_no_separator. reflexivity. Qed.

Section SourcesFurther.

Context (C : Collaborators).

(** X6. No entry of the sources of an answer holds a [/]: directories of the
    documents are never shown; and there are no more sources than retrieved
    chunks. *)
Theorem ask_sources_are_file_names
    (question : string) (st st' : State C) (result : AskResult) :
  ask C question st = (Ok result, st') ->
  Forall (fun s => Str.contains "/" s = false) (ar_sources result)
  /\ length (ar_sources result) <= length (ar_source_documents result).
Proof.
  intros Hask. unfold ask, bind, get_state, raise, deref, call, ret in Hask.
  destruct (self_qa_chain st) as [chain|]; [| discriminate].
  destruct (heap st !! chain_store chain) as [store|]; [| discriminate].
  simpl in Hask.
  destruct (RetrievalQA_invoke C (world st) store _ _ question) as [[res|e] w];
    [| discriminate].
  injection Hask as <- <-. simpl.
  destruct (list_set_spec (map source_name (default [] (cr_source_documents res))))
    as [Hnd Hmem].
  split.
  - apply Forall_forall. intros s Hs. apply Hmem in Hs.
    apply list_elem_of_In, in_map_iff in Hs as (doc & <- & _).
    apply basename_no_separator.
  - rewrite <- (length_map source_name (default [] (cr_source_documents res))).
    apply submseteq_length, NoDup_submseteq; [exact Hnd |].
    intros s Hs. apply Hmem, Hs.
Qed.

(** X7. When the chain returns no source document (the key missing or the
    list empty), the handler answers with the answer of the chain (empty if
    that key is missing), no source and no highlighted answer. *)
Theorem ask_question_without_sources
    (question : string) (st : State C) (chain : RetrievalQA) (store : FAISS C)
    (res : ChainResult) (w : World C) :
  self_qa_chain st = Some chain ->
  heap st !! chain_store chain = Some store ->
  RetrievalQA_invoke C (world st) store (chain_k chain) (chain_prompt chain) question
    = (Ok res, w) ->
  default [] (cr_source_documents res) = [] ->
  ask_question C question st
  = (Http200 {| answer := default EmptyString (cr_result res);
                sources := [];
                highlighted_answer := None |},
     with_world st w).
Proof.
  intros Hc Hstore Hinv Hdocs.
  unfold ask_question, ask, bind, get_state, raise, deref, call, ret.
  rewrite Hc, Hstore. simpl. rewrite Hinv. simpl. rewrite Hdocs. simpl.
  unfold list_set. simpl. rewrite elements_empty.
  rewrite String.eqb_refl. reflexivity.
Qed.

End SourcesFurther.

(** ** More on initialization *)

Section InitializeFurther.

Context (C : Collaborators) (settings : Settings).

(** The fresh-build path, step by step. *)
Lemma fresh_build_cases (st : State C) :
  fresh_build C settings st =
  if negb (Path_exists C (world st) (documents_path settings)) then
    (Raise (ValueError ("Documents path does not exist: "
                        +:+ Path_str C (documents_path settings))), st)
  else
    match DirectoryLoader_load C (world st) (Path_str C (documents_path settings))
            "**/*.txt" with
    | (Raise e, w1) => (Raise e, with_world st w1)
    | (Ok txt, w1) =>
        match DirectoryLoader_load C w1 (Path_str C (documents_path settings))
                "**/*.md" with
        | (Raise e, w2) => (Raise e, with_world st w2)
        | (Ok md, w2) =>
            match TextSplitter_split_documents C (chunk_size settings)
                    (chunk_overlap settings) separators (txt ++ md) with
            | Raise e => (Raise e, with_world st w2)
            | Ok chunks =>
                match FAISS_from_documents C w2 (embedding_model settings) chunks with
                | (Raise e, w3) => (Raise e, with_world st w3)
                | (Ok idx, w3) =>
                    match Path_mkdir C w3 (vector_store_path settings) with
                    | (Raise e, w4) =>
                        (Raise e, Build_State C (heap st ++ [idx])
                                    (Some (length (heap st))) (self_qa_chain st) w4)
                    | (Ok _, w4) =>
                        match FAISS_save_local C w4 idx (vector_store_path settings) with
                        | (Raise e, w5) =>
                            (Raise e, Build_State C (heap st ++ [idx])
                                        (Some (length (heap st))) (self_qa_chain st) w5)
                        | (Ok _, w5) => (Ok tt, ready_with settings st idx w5)
                        end
                    end
                end
            end
        end
    end.
Proof.
  destruct (Path_exists C (world st) (documents_path settings)) eqn:Hdocs; simpl.
  - destruct (DirectoryLoader_load C (world st) _ _) as [[txt|e] w1] eqn:Htxt.
    + destruct (DirectoryLoader_load C w1 _ _) as [[md|e] w2] eqn:Hmd.
      * destruct (TextSplitter_split_documents C _ _ _ (txt ++ md)) as [chunks|e] eqn:Hsp.
        -- apply (fresh_build_from_chunks C settings st txt md chunks w1 w2); assumption.
        -- unfold_pipeline. simpl. rewrite Hdocs. simpl. rewrite Htxt. simpl.
           rewrite Hmd. simpl. rewrite Hsp. reflexivity.
      * unfold_pipeline. simpl. rewrite Hdocs. simpl. rewrite Htxt. simpl.
        rewrite Hmd. reflexivity.
    + unfold_pipeline. simpl. rewrite Hdocs. simpl. rewrite Htxt. reflexivity.
  - unfold_pipeline. simpl. rewrite Hdocs. destruct st; reflexivity.
Qed.

(** [initialize_vector_store], step by step. *)
Lemma initialize_cases (force_rebuild : bool) (st : State C) :
  initialize_vector_store C settings force_rebuild st =
  if Path_exists C (world st) (vector_store_path settings) && negb force_rebuild then
    match FAISS_load_local C (world st) (vector_store_path settings)
            (embedding_model settings) with
    | (Ok idx, w1) => (Ok tt, ready_with settings st idx w1)
    | (Raise e, w1) => (Raise e, with_world st w1)
    end
  else fresh_build C settings st.
Proof.
  destruct (Path_exists C (world st) (vector_store_path settings) && negb force_rebuild)
    eqn:Hcond.
  - apply andb_true_iff in Hcond as [Hex Hf]. apply negb_true_iff in Hf as ->.
    destruct (FAISS_load_local C (world st) _ _) as [[idx|e] w1] eqn:Hload.
    + apply initialize_load_path; assumption.
    + apply initialize_load_failure; assumption.
  - apply initialize_is_fresh_build. exact Hcond.
Qed.

(** The state an initialization returns in. *)
Lemma initialize_return_shape (force_rebuild : bool) (st st' : State C) :
  initialize_vector_store C settings force_rebuild st = (Ok tt, st') ->
  exists idx w, st' = ready_with settings st idx w.
Proof.
  intros Hinit. rewrite initialize_cases in Hinit.
  destruct (Path_exists C (world st) (vector_store_path settings) && negb force_rebuild).
  - destruct (FAISS_load_local C (world st) _ _) as [[idx|e] w1]; [| discriminate].
    injection Hinit as <-. eauto.
  - rewrite fresh_build_cases in Hinit.
    destruct (negb (Path_exists C (world st) (documents_path settings)));
      [discriminate |].
    destruct (DirectoryLoader_load C (world st) _ _) as [[txt|e] w1]; [| discriminate].
    destruct (DirectoryLoader_load C w1 _ _) as [[md|e] w2]; [| discriminate].
    destruct (TextSplitter_split_documents C _ _ _ _) as [chunks|e]; [| discriminate].
    destruct (FAISS_from_documents C w2 _ _) as [[idx|e] w3]; [| discriminate].
    destruct (Path_mkdir C w3 _) as [[[]|e] w4]; [| discriminate].
    destruct (FAISS_save_local C w4 _ _) as [[[]|e] w5]; [| discriminate].
    injection Hinit as <-. eauto.
Qed.

(** The state an initialization raises in: the chain is kept, at most one
    store is new, and [self.vector_store] is kept or denotes the new store. *)
Lemma initialize_raise_shape (force_rebuild : bool) (st st' : State C) (e : Exn) :
  initialize_vector_store C settings force_rebuild st = (Raise e, st') ->
  self_qa_chain st' = self_qa_chain st
  /\ ((heap st' = heap st /\ self_vector_store st' = self_vector_store st)
      \/ (exists idx, heap st' = heap st ++ [idx]
                      /\ self_vector_store st' = Some (length (heap st)))).
Proof.
  intros Hinit. rewrite initialize_cases in Hinit.
  destruct (Path_exists C (world st) (vector_store_path settings) && negb force_rebuild).
  - destruct (FAISS_load_local C (world st) _ _) as [[idx|e1] w1]; [discriminate |].
    injection Hinit as _ <-. simpl. auto.
  - rewrite fresh_build_cases in Hinit.
    destruct (negb (Path_exists C (world st) (documents_path settings))).
    { injection Hinit as _ <-. auto. }
    destruct (DirectoryLoader_load C (world st) _ _) as [[txt|e1] w1].
    2: { injection Hinit as _ <-. simpl. auto. }
    destruct (DirectoryLoader_load C w1 _ _) as [[md|e1] w2].
    2: { injection Hinit as _ <-. simpl. auto. }
    destruct (TextSplitter_split_documents C _ _ _ _) as [chunks|e1].
    2: { injection Hinit as _ <-. simpl. auto. }
    destruct (FAISS_from_documents C w2 _ _) as [[idx|e1] w3].
    2: { injection Hinit as _ <-. simpl. auto. }
    destruct (Path_mkdir C w3 _) as [[[]|e1] w4].
    2: { injection Hinit as _ <-. simpl. eauto. }
    destruct (FAISS_save_local C w4 _ _) as [[[]|e1] w5]; [discriminate |].
    injection Hinit as _ <-. simpl. eauto.
Qed.

Lemma initialize_raise_keeps_stores (force_rebuild : bool) (st st' : State C) (e : Exn) :
  initialize_vector_store C settings force_rebuild st = (Raise e, st') ->
  forall r v, heap st !! r = Some v -> heap st' !! r = Some v.
Proof.
  intros Hinit r v Hr.
  destruct (initialize_raise_shape force_rebuild st st' e Hinit)
    as [_ [[-> _] | (idx & -> & _)]]; [exact Hr |].
  apply lookup_app_l_Some. exact Hr.
Qed.

(** X8. Whatever the collaborators do, an initialization that returns has
    put one new vector store on the heap, made it [self.vector_store], and
    created a QA chain that reads this very store with the configured [k]
    and the prompt: the pipeline is ready, the stores that existed before
    are untouched. *)
Theorem initialize_success_state (force_rebuild : bool) (st st' : State C) :
  initialize_vector_store C settings force_rebuild st = (Ok tt, st') ->
  exists idx,
    st' = ready_with settings st idx (world st')
    /\ ready st' = true
    /\ live_index st' = Some idx
    /\ self_qa_chain st' = Some (chain_over settings (length (heap st)))
    /\ (forall r v, heap st !! r = Some v -> heap st' !! r = Some v).
Proof.
  intros Hinit.
  destruct (initialize_return_shape force_rebuild st st' Hinit) as (idx & w & ->).
  exists idx. simpl.
  split; [reflexivity | split; [reflexivity | split; [| split; [reflexivity |]]]].
  - unfold live_index. simpl. apply list_lookup_middle. reflexivity.
  - intros r v Hr. apply lookup_app_l_Some. exact Hr.
Qed.

(** X9. An initialization that raises leaves the serving side as it was: the
    QA chain is the one from before (none, if there was none), and every
    vector store that existed, the one the chain reads among them, is
    unchanged.  A failed rebuild of a ready pipeline therefore keeps
    answering from the old index. *)
Theorem initialize_failure_keeps_serving
    (force_rebuild : bool) (st st' : State C) (e : Exn) :
  initialize_vector_store C settings force_rebuild st = (Raise e, st') ->
  self_qa_chain st' = self_qa_chain st
  /\ (forall r v, heap st !! r = Some v -> heap st' !! r = Some v).
Proof.
  intros Hinit. split.
  - apply (initialize_raise_shape force_rebuild st st' e Hinit).
  - apply (initialize_raise_keeps_stores force_rebuild st st' e Hinit).
Qed.

(** X10. When the new index is built but persisting it raises (creating the
    folder or saving), the exception is the outcome, [self.vector_store]
    already denotes the new index, and the QA chain is left as it was: in
    this state the new index is live but unsaved and unserved. *)
Theorem initialize_persist_failure
    (force_rebuild : bool) (st st' : State C) (txt md chunks : list Document)
    (idx : FAISS C) (w1 w2 w3 : World C) (e : Exn) :
  Path_exists C (world st) (vector_store_path settings) && negb force_rebuild = false ->
  Path_exists C (world st) (documents_path settings) = true ->
  DirectoryLoader_load C (world st) (Path_str C (documents_path settings)) "**/*.txt"
    = (Ok txt, w1) ->
  DirectoryLoader_load C w1 (Path_str C (documents_path settings)) "**/*.md"
    = (Ok md, w2) ->
  TextSplitter_split_documents C (chunk_size settings) (chunk_overlap settings)
    separators (txt ++ md) = Ok chunks ->
  FAISS_from_documents C w2 (embedding_model settings) chunks = (Ok idx, w3) ->
  (exists w4, Path_mkdir C w3 (vector_store_path settings) = (Raise e, w4))
  \/ (exists w4 w5, Path_mkdir C w3 (vector_store_path settings) = (Ok tt, w4)
                    /\ FAISS_save_local C w4 idx (vector_store_path settings)
                       = (Raise e, w5)) ->
  (initialize_vector_store C settings force_rebuild st).1 = Raise e
  /\ live_index (initialize_vector_store C settings force_rebuild st).2 = Some idx
  /\ self_qa_chain (initialize_vector_store C settings force_rebuild st).2
     = self_qa_chain st.
Proof.
  intros Hcond Hdocs Htxt Hmd Hsplit Hbuild Hpersist.
  rewrite initialize_cases, Hcond, fresh_build_cases, Hdocs. simpl.
  rewrite Htxt, Hmd, Hsplit, Hbuild.
  assert (Hlive : forall w, live_index (Build_State C (heap st ++ [idx])
                              (Some (length (heap st))) (self_qa_chain st) w) = Some idx).
  { intros w. unfold live_index. simpl. apply list_lookup_middle. reflexivity. }
  destruct Hpersist as [(w4 & Hmk) | (w4 & w5 & Hmk & Hsave)].
  - rewrite Hmk. simpl. auto.
  - rewrite Hmk, Hsave. simpl. auto.
Qed.

(** X11. On the build path (no vector store location, or a forced rebuild),
    a missing documents location makes the initialization raise the
    [ValueError] that names it; nothing has been read, built or written: the
    state is the one before the call. *)
Theorem initialize_missing_documents_path (force_rebuild : bool) (st : State C) :
  Path_exists C (world st) (vector_store_path settings) && negb force_rebuild = false ->
  Path_exists C (world st) (documents_path settings) = false ->
  initialize_vector_store C settings force_rebuild st
  = (Raise (ValueError ("Documents path does not exist: "
                        +:+ Path_str C (documents_path settings))), st).
Proof.
  intros Hcond Hdocs. rewrite initialize_cases, Hcond, fresh_build_cases, Hdocs.
  reflexivity.
Qed.

End InitializeFurther.

(** ** More on [add_documents] *)

Section AddDocumentsFurther.

Context (C : Collaborators) (settings : Settings).

Lemma save_vector_store_cases (st : State C) (r : nat) (v : FAISS C) :
  self_vector_store st = Some r ->
  heap st !! r = Some v ->
  save_vector_store C settings None None st =
  match Path_mkdir C (world st) (vector_store_path settings) with
  | (Raise e, w3) => (Raise e, with_world st w3)
  | (Ok _, w3) =>
      match FAISS_save_local C w3 v (vector_store_path settings) with
      | (res, w4) => (res, with_world st w4)
      end
  end.
Proof.
  intros Hvs Hv. unfold_pipeline. unfold with_world. simpl. rewrite !Hvs.
  destruct (Path_mkdir C (world st) _) as [[[]|e] w3]; simpl; [| reflexivity].
  rewrite Hv. simpl.
  destruct (FAISS_save_local C w3 v _) as [[[]|e] w4]; reflexivity.
Qed.

(** [add_documents] on an initialized pipeline, step by step. *)
Lemma add_documents_cases (file_paths : list string) (st : State C) (r : nat) (v : FAISS C) :
  self_vector_store st = Some r ->
  heap st !! r = Some v ->
  add_documents C settings file_paths st =
  match load_files C file_paths [] st with
  | (Raise e, st1) => (Raise e, with_world st (world st1))
  | (Ok new_docs, st1) =>
      match TextSplitter_split_documents C (chunk_size settings) (chunk_overlap settings)
              separators new_docs with
      | Raise e => (Raise e, with_world st (world st1))
      | Ok chunks =>
          match FAISS_add_documents C (world st1) v chunks with
          | (Raise e, v', w2) =>
              (Raise e, Build_State C (<[r:=v']> (heap st)) (Some r) (self_qa_chain st) w2)
          | (Ok _, v', w2) =>
              match Path_mkdir C w2 (vector_store_path settings) with
              | (Raise e, w3) =>
                  (Raise e,
                   Build_State C (<[r:=v']> (heap st)) (Some r) (self_qa_chain st) w3)
              | (Ok _, w3) =>
                  match FAISS_save_local C w3 v' (vector_store_path settings) with
                  | (res, w4) =>
                      (res,
                       Build_State C (<[r:=v']> (heap st)) (Some r) (self_qa_chain st) w4)
                  end
              end
          end
      end
  end.
Proof.
  intros Hvs Hv.
  assert (Hr : r < length (heap st)) by (eapply lookup_lt_Some; exact Hv).
  unfold add_documents. unfold bind at 1. unfold get_state. rewrite Hvs.
  unfold bind at 1.
  destruct (load_files_frame C file_paths [] st) as (Hh & Hs & Hc).
  destruct (load_files C file_paths [] st) as [[new_docs|e] st1]; simpl in Hh, Hs, Hc.
  2: { unfold with_world. destruct st1; simpl in *. subst. reflexivity. }
  unfold bind at 1. unfold split_documents at 1.
  destruct (TextSplitter_split_documents C _ _ _ new_docs) as [chunks|e].
  2: { unfold with_world. destruct st1; simpl in *. subst. reflexivity. }
  unfold bind at 1. unfold store_add_documents. rewrite Hh, Hv.
  destruct (FAISS_add_documents C (world st1) v chunks) as [[res v'] w2].
  rewrite Hs, Hc, Hvs.
  destruct res as [[]|e]; [| reflexivity].
  rewrite (save_vector_store_cases _ r v');
    [| reflexivity | simpl; apply list_lookup_insert_eq; exact Hr].
  simpl. destruct (Path_mkdir C w2 _) as [[[]|e] w3]; [| reflexivity].
  destruct (FAISS_save_local C w3 v' _) as [res w4]. reflexivity.
Qed.

(** The state [add_documents] leaves: the same references, a heap in which
    at most the live store has changed. *)
Lemma add_documents_final_state (file_paths : list string) (st : State C) :
  well_formed st ->
  exists h w,
    (add_documents C settings file_paths st).2
    = Build_State C h (self_vector_store st) (self_qa_chain st) w
    /\ length h = length (heap st)
    /\ (forall r', self_vector_store st <> Some r' -> h !! r' = heap st !! r').
Proof.
  intros [Hwf _].
  destruct (self_vector_store st) as [r|] eqn:Hvs.
  - destruct (lookup_lt_is_Some_2 (heap st) r (Hwf r eq_refl)) as [v Hv].
    rewrite (add_documents_cases file_paths st r v Hvs Hv).
    assert (Hins : forall v' w,
      exists h w0,
        Build_State C (<[r:=v']> (heap st)) (Some r) (self_qa_chain st) w
        = Build_State C h (Some r) (self_qa_chain st) w0
        /\ length h = length (heap st)
        /\ (forall r', Some r <> Some r' -> h !! r' = heap st !! r')).
    { intros v' w. exists (<[r:=v']> (heap st)), w. split; [reflexivity |].
      split; [apply length_insert |].
      intros r' Hne. apply list_lookup_insert_ne. congruence. }
    assert (Hsame : forall w,
      exists h w0,
        with_world st w = Build_State C h (Some r) (self_qa_chain st) w0
        /\ length h = length (heap st)
        /\ (forall r', Some r <> Some r' -> h !! r' = heap st !! r')).
    { intros w. exists (heap st), w. unfold with_world. rewrite Hvs. auto. }
    destruct (load_files C file_paths [] st) as [[new_docs|e] st1]; [| apply Hsame].
    destruct (TextSplitter_split_documents C _ _ _ new_docs) as [chunks|e];
      [| apply Hsame].
    destruct (FAISS_add_documents C (world st1) v chunks) as [[[[]|e] v'] w2];
      [| apply Hins].
    destruct (Path_mkdir C w2 _) as [[[]|e] w3]; [| apply Hins].
    destruct (FAISS_save_local C w3 v' _) as [res w4]. apply Hins.
  - exists (heap st), (world st).
    unfold add_documents, bind, get_state, raise. rewrite Hvs. simpl.
    split; [destruct st; simpl in *; subst; reflexivity | auto].
Qed.

(** X12. [add_documents] never replaces the vector store object or the QA
    chain, and never touches another object: whether it returns or raises,
    [self.vector_store] and [self.qa_chain] are the same references, the
    heap has the same size, and every store other than the live one is
    unchanged. *)
Theorem add_documents_keeps_references (file_paths : list string) (st : State C) :
  well_formed st ->
  self_vector_store (add_documents C settings file_paths st).2 = self_vector_store st
  /\ self_qa_chain (add_documents C settings file_paths st).2 = self_qa_chain st
  /\ length (heap (add_documents C settings file_paths st).2) = length (heap st)
  /\ (forall r', self_vector_store st <> Some r' ->
        heap (add_documents C settings file_paths st).2 !! r' = heap st !! r').
Proof.
  intros Hwf.
  destruct (add_documents_final_state file_paths st Hwf) as (h & w & -> & Hlen & Hother).
  simpl. auto.
Qed.

(** X13. When every step of [add_documents] succeeds, the live store object
    has been changed in place into the store the insertion produced and
    saved; the QA chain, which holds a reference to this object, reads the
    new contents without being rebuilt. *)
Theorem add_documents_success
    (file_paths : list string) (st st1 : State C) (r : nat) (v v' : FAISS C)
    (new_docs chunks : list Document) (w2 w3 w4 : World C) :
  self_vector_store st = Some r ->
  heap st !! r = Some v ->
  load_files C file_paths [] st = (Ok new_docs, st1) ->
  TextSplitter_split_documents C (chunk_size settings) (chunk_overlap settings)
    separators new_docs = Ok chunks ->
  FAISS_add_documents C (world st1) v chunks = (Ok tt, v', w2) ->
  Path_mkdir C w2 (vector_store_path settings) = (Ok tt, w3) ->
  FAISS_save_local C w3 v' (vector_store_path settings) = (Ok tt, w4) ->
  add_documents C settings file_paths st
  = (Ok tt, Build_State C (<[r:=v']> (heap st)) (Some r) (self_qa_chain st) w4)
  /\ live_index (add_documents C settings file_paths st).2 = Some v'
  /\ (forall chain,
        self_qa_chain st = Some chain -> chain_store chain = r ->
        self_qa_chain (add_documents C settings file_paths st).2 = Some chain
        /\ heap (add_documents C settings file_paths st).2 !! chain_store chain = Some v').
Proof.
  intros Hvs Hv Hload Hsplit Hadd Hmk Hsave.
  assert (Hr : r < length (heap st)) by (eapply lookup_lt_Some; exact Hv).
  rewrite (add_documents_cases file_paths st r v Hvs Hv).
  rewrite Hload, Hsplit, Hadd, Hmk, Hsave. simpl.
  split; [reflexivity |]. split.
  - unfold live_index. simpl. apply list_lookup_insert_eq. exact Hr.
  - intros chain Hc ->. split; [exact Hc |]. apply list_lookup_insert_eq. exact Hr.
Qed.

(** X14. There is no rollback in [add_documents].  When the files are read
    and split but the insertion raises, or the insertion succeeds and
    persisting raises, the exception is the outcome and the live store is
    the store the insertion left in memory. *)
Theorem add_documents_no_rollback
    (file_paths : list string) (st st1 : State C) (r : nat) (v v' : FAISS C)
    (new_docs chunks : list Document) (w2 : World C) (e : Exn) :
  self_vector_store st = Some r ->
  heap st !! r = Some v ->
  load_files C file_paths [] st = (Ok new_docs, st1) ->
  TextSplitter_split_documents C (chunk_size settings) (chunk_overlap settings)
    separators new_docs = Ok chunks ->
  FAISS_add_documents C (world st1) v chunks = (Raise e, v', w2)
  \/ (FAISS_add_documents C (world st1) v chunks = (Ok tt, v', w2)
      /\ ((exists w3, Path_mkdir C w2 (vector_store_path settings) = (Raise e, w3))
          \/ (exists w3 w4,
                Path_mkdir C w2 (vector_store_path settings) = (Ok tt, w3)
                /\ FAISS_save_local C w3 v' (vector_store_path settings)
                   = (Raise e, w4)))) ->
  (add_documents C settings file_paths st).1 = Raise e
  /\ live_index (add_documents C settings file_paths st).2 = Some v'.
Proof.
  intros Hvs Hv Hload Hsplit Hfail.
  assert (Hr : r < length (heap st)) by (eapply lookup_lt_Some; exact Hv).
  assert (Hlive : forall w,
            live_index (Build_State C (<[r:=v']> (heap st)) (Some r) (self_qa_chain st) w)
            = Some v').
  { intros w. unfold live_index. simpl. apply list_lookup_insert_eq. exact Hr. }
  rewrite (add_documents_cases file_paths st r v Hvs Hv), Hload, Hsplit.
  destruct Hfail as [Hadd | [Hadd [(w3 & Hmk) | (w3 & w4 & Hmk & Hsave)]]].
  - rewrite Hadd. simpl. auto.
  - rewrite Hadd, Hmk. simpl. auto.
  - rewrite Hadd, Hmk, Hsave. simpl. auto.
Qed.

End AddDocumentsFurther.

(** ** The handlers of [app/main.py] *)

Lemma endswith_spec (s suffix : string) :
  endswith s suffix = true <-> exists p, s = p +:+ suffix.
Proof.
  unfold endswith. rewrite andb_true_iff, Nat.leb_le, String.eqb_eq. split.
  - intros [Hlen Hdrop].
    assert (Hsplit : forall n t, n <= String.length t ->
              exists p, t = p +:+ Str.drop n t /\ String.length p = n).
    { induction n as [|n IH]; intros t Hn.
      - exists EmptyString. destruct t; auto.
      - destruct t as [|c t]; simpl in Hn; [lia |].
        destruct (IH t ltac:(lia)) as (p & Hp & Hl).
        exists (String c p). simpl. split; [f_equal; exact Hp | lia]. }
    destruct (Hsplit (String.length s - String.length suffix) s ltac:(lia)) as (p & Hp & _).
    exists p. rewrite Hdrop in Hp. exact Hp.
  - intros (p & ->). rewrite length_append. split; [lia |].
    replace (String.length p + String.length suffix - String.length suffix)
      with (String.length p) by lia.
    clear. induction p as [|c p IH]; simpl; [destruct suffix; reflexivity | exact IH].
Qed.

#[local] Arguments endswith_any : simpl never.

Section HandlersProperties.

Context (C : Collaborators) (H : Host C) (settings : Settings).

(** The upload loop changes the world only. *)
Lemma save_uploads_frame (dir : string) (files : list UploadFile)
    (uploaded_files : list string) (st : State C) :
  (save_uploads C H dir files uploaded_files st).2
  = with_world st (world (save_uploads C H dir files uploaded_files st).2).
Proof.
  revert uploaded_files st. induction files as [|f rest IH]; intros ups st; simpl.
  - destruct st; reflexivity.
  - destruct (negb (endswith_any (filename f) [".txt"; ".md"])).
    + destruct st; reflexivity.
    + destruct (write_upload H (world st) _ _) as [[[]|e] w]; simpl.
      * rewrite IH. reflexivity.
      * reflexivity.
Qed.

(** A loop that ends normally has met only [.txt] and [.md] names and
    returns the path of every file, in order. *)
Lemma save_uploads_returns (dir : string) (files : list UploadFile)
    (uploaded_files ups : list string) (st st1 : State C) :
  save_uploads C H dir files uploaded_files st = (inr ups, st1) ->
  ups = uploaded_files ++ map (fun f => Path_join H dir (filename f)) files
  /\ Forall (fun f => endswith_any (filename f) [".txt"; ".md"] = true) files.
Proof.
  revert uploaded_files st. induction files as [|f rest IH]; intros acc st Hrun;
    simpl in Hrun.
  - injection Hrun as <- _. rewrite app_nil_r. auto.
  - destruct (endswith_any (filename f) [".txt"; ".md"]) eqn:Hext; simpl in Hrun;
      [| discriminate].
    destruct (write_upload H (world st) _ _) as [[[]|e] w]; [| discriminate].
    destruct (IH _ _ Hrun) as [-> Hall]. rewrite <- app_assoc. auto.
Qed.

(** A file with another extension stops the loop with an [HTTPException]
    or lets an earlier exception through: the loop does not end normally. *)
Lemma save_uploads_invalid (dir : string) (files : list UploadFile) (f : UploadFile)
    (uploaded_files : list string) (st : State C) :
  In f files ->
  endswith_any (filename f) [".txt"; ".md"] = false ->
  exists t, (save_uploads C H dir files uploaded_files st).1 = inl t.
Proof.
  intros Hin Hext.
  destruct (save_uploads C H dir files uploaded_files st) as [[t|ups] st1] eqn:Hrun;
    [eauto |].
  destruct (save_uploads_returns _ _ _ _ _ _ Hrun) as [_ Hall].
  rewrite Forall_forall in Hall. apply list_elem_of_In in Hin.
  rewrite (Hall f Hin) in Hext. discriminate.
Qed.

(** X15. An upload that holds a file whose name ends neither in [.txt] nor
    in [.md] is never indexed and never answered with a response: the
    handler raises an [HTTPException], and the vector stores,
    [self.vector_store] and the QA chain are what they were. *)
Theorem upload_with_invalid_file_is_not_indexed
    (files : list UploadFile) (f : UploadFile) (st : State C) :
  In f files ->
  endswith_any (filename f) [".txt"; ".md"] = false ->
  (exists status_code detail,
      (upload_documents C H settings files st).1 = HTTPException status_code detail)
  /\ heap (upload_documents C H settings files st).2 = heap st
  /\ self_vector_store (upload_documents C H settings files st).2 = self_vector_store st
  /\ self_qa_chain (upload_documents C H settings files st).2 = self_qa_chain st.
Proof.
  intros Hin Hext. unfold upload_documents.
  destruct (Path_mkdir C (world st) _) as [[[]|e] w]; simpl; [| eauto 10].
  destruct (save_uploads_invalid (documents_path settings) files f [] (with_world st w)
              Hin Hext) as (t & Ht).
  pose proof (save_uploads_frame (documents_path settings) files [] (with_world st w))
    as Hframe.
  destruct (save_uploads C H (documents_path settings) files [] (with_world st w))
    as [[t'|ups] st1]; simpl in Ht; [| discriminate].
  simpl in Hframe. rewrite Hframe.
  destruct t' as [code detail|e]; simpl; eauto 10.
Qed.

Lemma save_uploads_app (dir : string) (pre rest : list UploadFile)
    (uploaded_files ups : list string) (st st1 : State C) :
  save_uploads C H dir pre uploaded_files st = (inr ups, st1) ->
  save_uploads C H dir (pre ++ rest) uploaded_files st
  = save_uploads C H dir rest ups st1.
Proof.
  revert uploaded_files st. induction pre as [|f pre IH]; intros acc st Hrun;
    simpl in *.
  - injection Hrun as <- <-. reflexivity.
  - destruct (negb (endswith_any (filename f) [".txt"; ".md"])); [discriminate |].
    destruct (write_upload H (world st) _ _) as [[[]|e] w]; [| discriminate].
    apply IH. exact Hrun.
Qed.

(** X16. The files are written one after the other, before anything is
    checked for the later ones.  When the folder exists, the files before
    the first invalid one are written, and the handler then raises status
    400 naming that file: the earlier files stay in the documents folder,
    and none is indexed. *)
Theorem upload_first_invalid_file
    (pre post : list UploadFile) (f : UploadFile) (ups : list string)
    (st st1 : State C) (w : World C) :
  Path_mkdir C (world st) (documents_path settings) = (Ok tt, w) ->
  save_uploads C H (documents_path settings) pre [] (with_world st w) = (inr ups, st1) ->
  endswith_any (filename f) [".txt"; ".md"] = false ->
  upload_documents C H settings (pre ++ f :: post) st
  = (HTTPException 400
       ("Invalid file type: " +:+ filename f +:+ ". Only .txt and .md files are allowed."),
     st1)
  /\ st1 = with_world st (world st1)
  /\ ups = map (fun g => Path_join H (documents_path settings) (filename g)) pre.
Proof.
  intros Hmk Hpre Hext. unfold upload_documents. rewrite Hmk.
  rewrite (save_uploads_app _ pre (f :: post) [] ups _ st1 Hpre). simpl.
  rewrite Hext. simpl. split; [reflexivity | split].
  - pose proof (save_uploads_frame (documents_path settings) pre [] (with_world st w))
      as Hframe.
    rewrite Hpre in Hframe. simpl in Hframe. exact Hframe.
  - apply (save_uploads_returns _ _ _ _ _ _ Hpre).
Qed.

(** X17. An upload to a pipeline without vector store: the files are
    written to the documents folder, then [add_documents] raises and the
    handler answers status 500 with its message; the files stay on disk,
    not indexed. *)
Theorem upload_to_uninitialized_pipeline
    (files : list UploadFile) (ups : list string) (st st1 : State C) (w : World C) :
  self_vector_store st = None ->
  Path_mkdir C (world st) (documents_path settings) = (Ok tt, w) ->
  save_uploads C H (documents_path settings) files [] (with_world st w) = (inr ups, st1) ->
  upload_documents C H settings files st
  = (HTTPException 500
       "An error occurred while uploading documents: Vector store not initialized",
     st1).
Proof.
  intros Hvs Hmk Hrun. unfold upload_documents. rewrite Hmk, Hrun.
  pose proof (save_uploads_frame (documents_path settings) files [] (with_world st w))
    as Hframe.
  rewrite Hrun in Hframe. simpl in Hframe.
  unfold add_documents, bind, get_state, raise. rewrite Hframe. simpl. rewrite Hvs.
  reflexivity.
Qed.

(** X18. An upload that is answered with a response: every file name ended
    in [.txt] or [.md]; the response lists the base name of the path of
    every file, in the order given, and their number in its message; the
    total is the [ntotal] of the live store after the insertion. *)
Theorem upload_response
    (files : list UploadFile) (st st' : State C) (resp : UploadResponse) :
  upload_documents C H settings files st = (Http200 resp, st') ->
  Forall (fun f => endswith_any (filename f) [".txt"; ".md"] = true) files
  /\ ur_files_uploaded resp
     = map (fun f => basename (Path_join H (documents_path settings) (filename f))) files
  /\ ur_message resp
     = "Successfully uploaded " +:+ str_of_nat (length files) +:+ " document(s)"
  /\ total_docs C H st' = Ok (ur_total_documents resp).
Proof.
  unfold upload_documents.
  destruct (Path_mkdir C (world st) _) as [[[]|e] w]; [| discriminate].
  destruct (save_uploads C H (documents_path settings) files [] (with_world st w))
    as [[[code detail|e]|ups] st1] eqn:Hrun; try discriminate.
  destruct (add_documents C settings ups st1) as [[[]|e] st2]; [| discriminate].
  destruct (total_docs C H st2) as [n|e] eqn:Hn; [| discriminate].
  intros Heq. injection Heq as <- <-. simpl.
  destruct (save_uploads_returns _ _ _ _ _ _ Hrun) as [-> Hall]. simpl.
  rewrite map_map, length_map. auto.
Qed.

(** X19. [/health] looks at [self.vector_store] only.  After an
    initialization that raised while persisting a first index, it reports
    the vector store as initialized, while [/ask] answers status 500 with the
    not-initialized message: the two disagree. *)
Theorem health_initialized_while_ask_fails
    (force_rebuild : bool) (question : string) (st st' : State C) (e : Exn) :
  ready st = false ->
  initialize_vector_store C settings force_rebuild st = (Raise e, st') ->
  self_vector_store st' <> None ->
  hr_vector_store_initialized (health_check C H st') = true
  /\ ask_question C question st'
     = (HTTPException 500
          ("An error occurred while processing your question: "
           +:+ not_initialized_message),
        st').
Proof.
  intros Hready Hinit Hvs. split.
  - unfold health_check. simpl. destruct (self_vector_store st'); [reflexivity | congruence].
  - pose proof (initialize_raise_keeps_chain C settings force_rebuild st st' e Hinit)
      as Hchain.
    unfold ask_question, ask, bind, get_state, raise. rewrite Hchain.
    unfold ready in Hready. destruct (self_qa_chain st); [discriminate | reflexivity].
Qed.

(** X21. A rebuild that is answered with a response went through the
    fresh-build path, whatever is persisted; the total it reports is the
    [ntotal] of the index just built, which is the live index and the one the
    new QA chain reads. *)
Theorem rebuild_response (st st' : State C) (resp : RebuildResponse) :
  rebuild_vector_store C H settings st = (Http200 resp, st') ->
  fresh_build C settings st = (Ok tt, st')
  /\ rr_message resp = "Vector store rebuilt successfully"
  /\ exists idx,
       live_index st' = Some idx
       /\ index_ntotal H idx = Ok (rr_total_documents resp)
       /\ self_qa_chain st' = Some (chain_over settings (length (heap st)))
       /\ heap st' !! length (heap st) = Some idx.
Proof.
  unfold rebuild_vector_store.
  destruct (initialize_vector_store C settings true st) as [[[]|e] st1] eqn:Hinit;
    [| discriminate].
  destruct (total_docs C H st1) as [n|e] eqn:Hn; [| discriminate].
  intros Heq. injection Heq as <- <-. simpl.
  split; [| split; [reflexivity |]].
  - rewrite <- Hinit. symmetry. apply initialize_is_fresh_build. apply andb_false_r.
  - destruct (initialize_return_shape C settings true st st1 Hinit) as (idx & w & ->).
    assert (Hidx : (heap st ++ [idx]) !! length (heap st) = Some idx)
      by (apply list_lookup_middle; reflexivity).
    exists idx. unfold live_index, total_docs in *. simpl in *. rewrite Hidx in Hn.
    auto.
Qed.

(** X22. A rebuild whose initialization raises is answered with status 500
    and the message of the exception; the QA chain and the store it reads
    are the ones from before, so [/ask] keeps answering from the old index. *)
Theorem rebuild_failure (st st' : State C) (e : Exn) :
  initialize_vector_store C settings true st = (Raise e, st') ->
  rebuild_vector_store C H settings st
  = (HTTPException 500
       ("An error occurred while rebuilding vector store: " +:+ exn_message e), st')
  /\ self_qa_chain st' = self_qa_chain st
  /\ (forall chain store,
        self_qa_chain st = Some chain ->
        heap st !! chain_store chain = Some store ->
        heap st' !! chain_store chain = Some store).
Proof.
  intros Hinit. unfold rebuild_vector_store. rewrite Hinit.
  split; [reflexivity | split].
  - apply (initialize_raise_keeps_chain C settings true st st' e Hinit).
  - intros chain store _ Hstore.
    apply (initialize_raise_keeps_stores C settings true st st' e Hinit), Hstore.
Qed.

End HandlersProperties.

(** ** [setup_logger] *)

Section LoggerProperties.

Context (H : Logging.Host).

(** X23. [setup_logger] adds its handlers once.  After a call that
    returned, calling it again for the same name returns the same logger
    and changes nothing: no handler is added, the file system is not
    touched. *)
Theorem setup_logger_twice (name n : string) (st st1 : Logging.State H) :
  Logging.setup_logger H name st = (Ok n, st1) ->
  Logging.setup_logger H name st1 = (Ok n, st1).
Proof.
  unfold Logging.setup_logger, Logging.getLogger.
  destruct (Logging.handlers (default _ (Logging.loggers st !! name)))
    as [|h hs] eqn:Hhs.
  - destruct (Logging.mkdir H (Logging.world st) "logs") as [[[]|e] w]; [| discriminate].
    destruct (Logging.open_log H w _) as [[[]|e] w']; [| discriminate].
    intros Heq. injection Heq as <- <-. simpl.
    rewrite lookup_insert_eq. simpl. rewrite insert_insert_eq. reflexivity.
  - intros Heq. injection Heq as <- <-. simpl.
    rewrite lookup_insert_eq. simpl. rewrite insert_insert_eq. reflexivity.
Qed.



End LoggerProperties.

(** ** The further properties on concrete runs *)

Lemma highlight_short_answer_unchanged_witness :
  highlight_context "I do not know."
    ["Returns are accepted within 30 days. I do not know."] = "I do not know.".
Proof.
  apply (highlight_short_answer_unchanged "I do not know."
           ["Returns are accepted within 30 days. I do not know."]).
  vm_compute. lia.
Defined.

Lemma highlight_repeated_sentence_rewraps_witness :
  String.length "**Returns are accepted within 30 days.**" + 4
  <= String.length (highlight_sentence "Returns are accepted within 30 days."
                      "**Returns are accepted within 30 days.**"
                      "Returns are accepted within 30 days.").
Proof.
  apply (highlight_repeated_sentence_rewraps "Returns are accepted within 30 days."
           "Returns are accepted within 30 days." "Returns are accepted within 30 days.");
    reflexivity.
Defined.

Lemma re_split_sentences_units_witness :
  exists p c, "First one." = p +:+ String c EmptyString /\ Str.is_stop c = true.
Proof.
  apply (proj1 (proj2 (proj2 (re_split_sentences_units "First one.  Second one? Third")))
           0 "First one."); [reflexivity | vm_compute; lia].
Defined.

Lemma ask_sources_are_file_names_witness :
  exists result st',
    ask (Demo.collaborators true) "What is the return window?" Demo.st_two_folders
    = (Ok result, st')
    /\ Forall (fun s => Str.contains "/" s = false) (ar_sources result)
    /\ length (ar_sources result) <= length (ar_source_documents result).
Proof.
  eexists. eexists. split; [reflexivity |].
  apply (ask_sources_are_file_names (Demo.collaborators true)
           "What is the return window?" Demo.st_two_folders _ _ eq_refl).
Defined.

Lemma ask_question_without_sources_witness :
  ask_question (Demo.collaborators true) "What is the return window?"
    DemoHost.st_empty_store
  = (Http200 {| answer := EmptyString; sources := []; highlighted_answer := None |},
     DemoHost.st_empty_store).
Proof.
  apply (ask_question_without_sources (Demo.collaborators true)
           "What is the return window?" DemoHost.st_empty_store
           {| chain_store := 0; chain_k := 4; chain_prompt := prompt_template |}
           [] {| cr_result := None; cr_source_documents := Some [] |} Demo.w_saved);
    reflexivity.
Defined.

Lemma initialize_success_state_witness :
  exists idx,
    (initialize_vector_store (Demo.collaborators true) default_settings false
       (init_state (Demo.collaborators true) Demo.w_fresh)).2
    = ready_with default_settings (init_state (Demo.collaborators true) Demo.w_fresh) idx
        (world (initialize_vector_store (Demo.collaborators true) default_settings false
                  (init_state (Demo.collaborators true) Demo.w_fresh)).2).
Proof.
  destruct (initialize_success_state (Demo.collaborators true) default_settings false
              (init_state (Demo.collaborators true) Demo.w_fresh) _ eq_refl)
    as (idx & Hst & _).
  exists idx. exact Hst.
Defined.

Lemma initialize_failure_keeps_serving_witness :
  self_qa_chain
    (initialize_vector_store (Demo.collaborators true) default_settings true
       DemoHost.st_ready_empty_folder).2
  = self_qa_chain DemoHost.st_ready_empty_folder.
Proof.
  apply (initialize_failure_keeps_serving (Demo.collaborators true) default_settings true
           DemoHost.st_ready_empty_folder _ Demo.IndexError).
  reflexivity.
Defined.

Lemma initialize_persist_failure_witness :
  (initialize_vector_store DemoHost.collaborators_no_save default_settings false
     (init_state DemoHost.collaborators_no_save Demo.w_fresh)).1
  = Raise DemoHost.PermissionError
  /\ live_index
       (initialize_vector_store DemoHost.collaborators_no_save default_settings false
          (init_state DemoHost.collaborators_no_save Demo.w_fresh)).2
     = Some [Demo.policy]
  /\ self_qa_chain
       (initialize_vector_store DemoHost.collaborators_no_save default_settings false
          (init_state DemoHost.collaborators_no_save Demo.w_fresh)).2
     = None.
Proof.
  apply (initialize_persist_failure DemoHost.collaborators_no_save default_settings false
           (init_state DemoHost.collaborators_no_save Demo.w_fresh)
           (init_state DemoHost.collaborators_no_save Demo.w_fresh)
           [Demo.policy] [] [Demo.policy] [Demo.policy]
           Demo.w_fresh Demo.w_fresh Demo.w_fresh DemoHost.PermissionError);
    try reflexivity.
  right. exists (Demo.with_existing Demo.w_fresh "./vector_store"),
           (Demo.with_existing Demo.w_fresh "./vector_store").
  split; reflexivity.
Defined.

Lemma initialize_missing_documents_path_witness :
  initialize_vector_store (Demo.collaborators true) default_settings false
    (init_state (Demo.collaborators true) DemoHost.w_nothing)
  = (Raise (ValueError "Documents path does not exist: ./documents"),
     init_state (Demo.collaborators true) DemoHost.w_nothing).
Proof.
  apply (initialize_missing_documents_path (Demo.collaborators true) default_settings false
           (init_state (Demo.collaborators true) DemoHost.w_nothing));
    reflexivity.
Defined.

Lemma st_ready_well_formed : well_formed Demo.st_ready.
Proof.
  split.
  - intros r Hr. injection Hr as <-. simpl. lia.
  - intros ch Hc. injection Hc as <-. simpl. lia.
Qed.

Lemma add_documents_keeps_references_witness :
  self_vector_store
    (add_documents (Demo.collaborators true) default_settings
       ["documents/faq.txt"] Demo.st_ready).2
  = self_vector_store Demo.st_ready
  /\ self_qa_chain
       (add_documents (Demo.collaborators true) default_settings
          ["documents/faq.txt"] Demo.st_ready).2
     = self_qa_chain Demo.st_ready.
Proof.
  destruct (add_documents_keeps_references (Demo.collaborators true) default_settings
              ["documents/faq.txt"] Demo.st_ready st_ready_well_formed)
    as (Hvs & Hc & _).
  split; assumption.
Defined.

Lemma add_documents_success_witness :
  live_index
    (add_documents (Demo.collaborators true) default_settings
       ["documents/faq.txt"] Demo.st_ready).2
  = Some [Demo.policy;
          Demo.doc "Shipping is free for orders above 50 euros." "documents/faq.txt"].
Proof.
  apply (add_documents_success (Demo.collaborators true) default_settings
           ["documents/faq.txt"] Demo.st_ready Demo.st_ready 0 [Demo.policy]
           [Demo.policy;
            Demo.doc "Shipping is free for orders above 50 euros." "documents/faq.txt"]
           [Demo.doc "Shipping is free for orders above 50 euros." "documents/faq.txt"]
           [Demo.doc "Shipping is free for orders above 50 euros." "documents/faq.txt"]
           Demo.w_fresh
           (Demo.with_existing Demo.w_fresh "./vector_store")
           (Demo.with_saved (Demo.with_existing Demo.w_fresh "./vector_store")
              "./vector_store"
              [Demo.policy;
               Demo.doc "Shipping is free for orders above 50 euros."
                 "documents/faq.txt"]));
    reflexivity.
Defined.

Lemma add_documents_no_rollback_witness :
  (add_documents DemoHost.collaborators_no_save default_settings
     ["documents/faq.txt"] DemoHost.st_ready_no_save).1
  = Raise DemoHost.PermissionError
  /\ live_index
       (add_documents DemoHost.collaborators_no_save default_settings
          ["documents/faq.txt"] DemoHost.st_ready_no_save).2
     = Some [Demo.policy;
             Demo.doc "Shipping is free for orders above 50 euros." "documents/faq.txt"].
Proof.
  apply (add_documents_no_rollback DemoHost.collaborators_no_save default_settings
           ["documents/faq.txt"] DemoHost.st_ready_no_save DemoHost.st_ready_no_save
           0 [Demo.policy]
           [Demo.policy;
            Demo.doc "Shipping is free for orders above 50 euros." "documents/faq.txt"]
           [Demo.doc "Shipping is free for orders above 50 euros." "documents/faq.txt"]
           [Demo.doc "Shipping is free for orders above 50 euros." "documents/faq.txt"]
           Demo.w_fresh DemoHost.PermissionError);
    try reflexivity.
  right. split; [reflexivity |]. right.
  exists (Demo.with_existing Demo.w_fresh "./vector_store"),
         (Demo.with_existing Demo.w_fresh "./vector_store").
  split; reflexivity.
Defined.

Lemma upload_with_invalid_file_is_not_indexed_witness :
  (exists status_code detail,
     (upload_documents (Demo.collaborators true) (DemoHost.host true) default_settings
        [ {| filename := "faq.txt"; file := "Shipping is free." |};
          {| filename := "notes.pdf"; file := "%PDF" |} ]
        Demo.st_ready).1 = HTTPException status_code detail)
  /\ heap
       (upload_documents (Demo.collaborators true) (DemoHost.host true) default_settings
          [ {| filename := "faq.txt"; file := "Shipping is free." |};
            {| filename := "notes.pdf"; file := "%PDF" |} ]
          Demo.st_ready).2
     = heap Demo.st_ready.
Proof.
  destruct (upload_with_invalid_file_is_not_indexed (Demo.collaborators true)
              (DemoHost.host true) default_settings
              [ {| filename := "faq.txt"; file := "Shipping is free." |};
                {| filename := "notes.pdf"; file := "%PDF" |} ]
              {| filename := "notes.pdf"; file := "%PDF" |} Demo.st_ready)
    as (Hexn & Hheap & _).
  - right. left. reflexivity.
  - reflexivity.
  - split; assumption.
Defined.

Lemma upload_first_invalid_file_witness :
  (upload_documents (Demo.collaborators true) (DemoHost.host true) default_settings
     [ {| filename := "faq.txt"; file := "Shipping is free." |};
       {| filename := "notes.pdf"; file := "%PDF" |} ]
     Demo.st_ready).1
  = HTTPException 400 "Invalid file type: notes.pdf. Only .txt and .md files are allowed."
  /\ Demo.readable
       (world (upload_documents (Demo.collaborators true) (DemoHost.host true)
                 default_settings
                 [ {| filename := "faq.txt"; file := "Shipping is free." |};
                   {| filename := "notes.pdf"; file := "%PDF" |} ]
                 Demo.st_ready).2)
     = ("./documents/faq.txt", "Shipping is free.") :: Demo.readable Demo.w_fresh.
Proof.
  destruct (upload_first_invalid_file (Demo.collaborators true) (DemoHost.host true)
              default_settings
              [ {| filename := "faq.txt"; file := "Shipping is free." |} ] []
              {| filename := "notes.pdf"; file := "%PDF" |}
              ["./documents/faq.txt"]
              Demo.st_ready
              (with_world Demo.st_ready
                 (DemoHost.with_readable (Demo.with_existing Demo.w_fresh "./documents")
                    "./documents/faq.txt" "Shipping is free."))
              (Demo.with_existing Demo.w_fresh "./documents")
              eq_refl eq_refl eq_refl) as (Heq & _).
  simpl app in Heq. rewrite Heq. split; reflexivity.
Defined.

Lemma upload_to_uninitialized_pipeline_witness :
  (upload_documents (Demo.collaborators true) (DemoHost.host true) default_settings
     [ {| filename := "faq.txt"; file := "Shipping is free." |} ]
     (init_state (Demo.collaborators true) Demo.w_fresh)).1
  = HTTPException 500
      "An error occurred while uploading documents: Vector store not initialized".
Proof.
  rewrite (upload_to_uninitialized_pipeline (Demo.collaborators true) (DemoHost.host true)
             default_settings
             [ {| filename := "faq.txt"; file := "Shipping is free." |} ]
             ["./documents/faq.txt"]
             (init_state (Demo.collaborators true) Demo.w_fresh)
             (with_world (init_state (Demo.collaborators true) Demo.w_fresh)
                (DemoHost.with_readable (Demo.with_existing Demo.w_fresh "./documents")
                   "./documents/faq.txt" "Shipping is free."))
             (Demo.with_existing Demo.w_fresh "./documents")
             eq_refl eq_refl eq_refl).
  reflexivity.
Defined.

Lemma upload_response_witness :
  exists resp st',
    upload_documents (Demo.collaborators true) (DemoHost.host true) default_settings
      [ {| filename := "faq.txt"; file := "Shipping is free." |};
        {| filename := "terms.md"; file := "Terms apply." |} ]
      Demo.st_ready
    = (Http200 resp, st')
    /\ ur_files_uploaded resp = ["faq.txt"; "terms.md"]
    /\ ur_message resp = "Successfully uploaded 2 document(s)"
    /\ ur_total_documents resp = 3%Z.
Proof.
  eexists. eexists. split; [reflexivity |].
  destruct (upload_response (Demo.collaborators true) (DemoHost.host true) default_settings
              [ {| filename := "faq.txt"; file := "Shipping is free." |};
                {| filename := "terms.md"; file := "Terms apply." |} ]
              Demo.st_ready _ _ eq_refl) as (_ & Hfiles & Hmsg & _).
  split; [exact Hfiles | split; [exact Hmsg | reflexivity]].
Defined.

Lemma health_initialized_while_ask_fails_witness :
  hr_vector_store_initialized
    (health_check DemoHost.collaborators_no_save DemoHost.host_no_save
       (initialize_vector_store DemoHost.collaborators_no_save default_settings false
          (init_state DemoHost.collaborators_no_save Demo.w_fresh)).2) = true
  /\ (ask_question DemoHost.collaborators_no_save "What is the return window?"
        (initialize_vector_store DemoHost.collaborators_no_save default_settings false
           (init_state DemoHost.collaborators_no_save Demo.w_fresh)).2).1
     = HTTPException 500
         ("An error occurred while processing your question: "
          +:+ not_initialized_message).
Proof.
  destruct (health_initialized_while_ask_fails DemoHost.collaborators_no_save
              DemoHost.host_no_save default_settings false "What is the return window?"
              (init_state DemoHost.collaborators_no_save Demo.w_fresh)
              (initialize_vector_store DemoHost.collaborators_no_save default_settings
                 false (init_state DemoHost.collaborators_no_save Demo.w_fresh)).2
              DemoHost.PermissionError)
    as (Hhealth & Hask).
  - reflexivity.
  - reflexivity.
  - discriminate.
  - split; [exact Hhealth |]. rewrite Hask. reflexivity.
Defined.

Lemma rebuild_response_witness :
  exists resp st',
    rebuild_vector_store (Demo.collaborators true) (DemoHost.host true) default_settings
      Demo.st_ready
    = (Http200 resp, st')
    /\ rr_total_documents resp = 1%Z
    /\ self_qa_chain st' = Some (chain_over default_settings 1).
Proof.
  eexists. eexists. split; [reflexivity |].
  destruct (rebuild_response (Demo.collaborators true) (DemoHost.host true)
              default_settings Demo.st_ready _ _ eq_refl)
    as (_ & _ & idx & _ & _ & Hchain & _).
  split; [reflexivity | exact Hchain].
Defined.

Lemma rebuild_failure_witness :
  (rebuild_vector_store (Demo.collaborators true) (DemoHost.host true) default_settings
     DemoHost.st_ready_empty_folder).1
  = HTTPException 500
      "An error occurred while rebuilding vector store: list index out of range"
  /\ self_qa_chain
       (rebuild_vector_store (Demo.collaborators true) (DemoHost.host true)
          default_settings DemoHost.st_ready_empty_folder).2
     = self_qa_chain DemoHost.st_ready_empty_folder.
Proof.
  destruct (rebuild_failure (Demo.collaborators true) (DemoHost.host true) default_settings
              DemoHost.st_ready_empty_folder
              (initialize_vector_store (Demo.collaborators true) default_settings true
                 DemoHost.st_ready_empty_folder).2
              Demo.IndexError eq_refl) as (Heq & Hchain & _).
  rewrite Heq. split; [reflexivity | exact Hchain].
Defined.

Lemma setup_logger_twice_witness :
  Logging.setup_logger Logging.demo_host "rag_api"
    (Logging.setup_logger Logging.demo_host "rag_api"
       (Logging.Build_State Logging.demo_host ∅ [])).2
  = (Ok "rag_api",
     (Logging.setup_logger Logging.demo_host "rag_api"
        (Logging.Build_State Logging.demo_host ∅ [])).2).
Proof.
  apply (setup_logger_twice Logging.demo_host "rag_api" "rag_api"
           (Logging.Build_State Logging.demo_host ∅ [])).
  reflexivity.
Defined.



(** ** What every history of calls keeps *)

Section Histories.

Context (C : Collaborators) (settings : Settings).

Lemma hoare_final {A} (m : M C A) (st : State C) :
  hoare well_formed m (fun _ => well_formed) -> well_formed st -> well_formed (m st).2.
Proof.
  intros Hm Hwf. specialize (Hm st Hwf). destruct (m st) as [[a|e] st']; exact Hm.
Qed.

Lemma consistent_after (c : Call C) (st : State C) :
  consistent C settings st -> consistent C settings (after C settings c st).
Proof.
  intros [Hwf Hchain]. destruct c as [force_rebuild | file_paths | question | w]; simpl.
  - split; [apply hoare_final; [apply initialize_well_formed | exact Hwf] |].
    destruct (initialize_vector_store C settings force_rebuild st) as [[[]|e] st'] eqn:Hinit;
      simpl.
    + destruct (initialize_return_shape C settings force_rebuild st st' Hinit)
        as (idx & w & ->).
      intros chain Hc. simpl in Hc. injection Hc as <-. simpl.
      split; [discriminate | auto].
    + destruct (initialize_raise_shape C settings force_rebuild st st' e Hinit)
        as [Hc [[_ Hvs] | (idx & _ & Hvs)]]; rewrite Hc, Hvs.
      * exact Hchain.
      * intros chain Hch. destruct (Hchain chain Hch) as (_ & Hk & Hp).
        split; [discriminate | auto].
  - split; [apply hoare_final; [apply add_documents_well_formed | exact Hwf] |].
    destruct (add_documents_final_state C settings file_paths st Hwf) as (h & w & -> & _).
    exact Hchain.
  - rewrite (ask_final_state C question st). split; [exact Hwf | exact Hchain].
  - split; [exact Hwf | exact Hchain].
Qed.

(** X20. Whatever is called on a pipeline, in whatever order, and whether
    the calls return or raise: the references of the pipeline and of its QA
    chain denote vector stores, so [ask] never meets a missing object; a QA
    chain exists only together with a vector store; and the chain carries
    the configured [k] and the prompt. *)
Theorem pipeline_stays_consistent (calls : list (Call C)) (w : World C) :
  consistent C settings (after_all C settings calls (init_state C w))
  /\ (forall chain,
        self_qa_chain (after_all C settings calls (init_state C w)) = Some chain ->
        exists store,
          heap (after_all C settings calls (init_state C w)) !! chain_store chain
          = Some store).
Proof.
  assert (Hinv : forall st, consistent C settings st ->
                   consistent C settings (after_all C settings calls st)).
  { unfold after_all. induction calls as [|c calls IH]; intros st Hst; simpl.
    - exact Hst.
    - apply IH, consistent_after, Hst. }
  assert (Hinit : consistent C settings (init_state C w)).
  { split; [apply init_state_well_formed | discriminate]. }
  specialize (Hinv _ Hinit). split; [exact Hinv |].
  intros chain Hc. destruct Hinv as [[_ Hwf] _].
  apply lookup_lt_is_Some_2, Hwf, Hc.
Qed.

End Histories.

Lemma pipeline_stays_consistent_witness :
  exists store,
    heap (after_all (Demo.collaborators true) default_settings
            [CallAsk "What is the return window?"; CallInitialize false;
             CallAddDocuments ["documents/faq.txt"; "documents/missing.txt"];
             CallInitialize true]
            (init_state (Demo.collaborators true) Demo.w_fresh)) !! 1
    = Some store.
Proof.
  apply (proj2 (pipeline_stays_consistent (Demo.collaborators true) default_settings
                  [CallAsk "What is the return window?"; CallInitialize false;
                   CallAddDocuments ["documents/faq.txt"; "documents/missing.txt"];
                   CallInitialize true]
                  Demo.w_fresh)
           {| chain_store := 1; chain_k := 4; chain_prompt := prompt_template |}).
  reflexivity.
Defined.
